(** * Docker AI agent with n8n integration: a shallow embedding of
    [agent/main.py] and the properties of its HTTP handlers.

    The service is glue code around four external collaborators: the local
    file system (through [pathlib] and [open]), the container runtime
    (through the docker SDK), the language model backend ([ollama.chat]) and
    the automation receiver ([requests.post]).  The handlers are embedded as
    computations of a state-and-exception monad over a [World] that holds
    the state of each collaborator:

    - the file system is a finite map from absolute locations to nodes,
      with the path resolution of the operating system written out,
      the limits on the length of a name and of a path included
      (no symbolic links, no quotas, no permissions);
    - [pathlib]'s pure path arithmetic ([Path(s)], [p / s], [str p],
      [p.name]) is embedded on strings as the library defines it;
    - the container runtime is an interface ([DockerClient]), the lookup
      of the image of a container being one of its calls; every theorem
      holds for every implementation of it, and a small in-memory runtime
      is provided to run the handlers on concrete inputs;
    - the model backend and the webhook receiver are oracles of the world:
      arbitrary functions from the call to its outcome, together with a log
      of the calls that were made;
    - [json.dumps], the builtins [str] and [repr], and the one point on
      which the versions of [pathlib] differ (what [exists()] and
      [is_file()] do with an error of [stat] other than "not there") are
      parameters.

    Only exceptions that derive from Python's [Exception] are modelled
    (asynchronous signals such as [KeyboardInterrupt] are not). *)

From Stdlib Require Import ZArith Ascii String.
From stdpp Require Import gmap strings list fin_maps.

Local Open Scope string_scope.
Local Open Scope Z_scope.

(** ** Python values *)

Abbreviation bytes := (list Byte.byte).

(** The JSON-like values the handlers build and return. A [dict] keeps its
    insertion order. *)
#[warnings="-register-all"]
Inductive pyval : Type :=
| PNone
| PBool (b : bool)
| PInt (n : Z)
| PStr (s : string)
| PList (xs : list pyval)
| PDict (kvs : list (string * pyval)).

(** [d.get(k)] on the items of a dict. *)
Fixpoint dict_get (k : string) (kvs : list (string * pyval)) : option pyval :=
  match kvs with
  | [] => None
  | (k', v) :: rest => if String.eqb k k' then Some v else dict_get k rest
  end.


(** [v.get(k)] and [k in v] for a value that is expected to be a dict. *)
Definition field (k : string) (v : pyval) : option pyval :=
  match v with
  | PDict kvs => dict_get k kvs
  | _ => None
  end.

Definition has_key (k : string) (v : pyval) : bool :=
  match field k v with Some _ => true | None => false end.

(** ** Exceptions and results *)

Inductive exn : Type :=
| Exception (cls : string) (msg : string)
    (* an instance of a subclass of Exception; msg is str(e) *)
| HTTPException (status_code : Z) (detail : string).

Definition nat_digit (n : nat) : string :=
  String (ascii_of_nat (48 + n mod 10)) "".

Fixpoint nat_to_str_aux (fuel n : nat) (acc : string) : string :=
  match fuel with
  | O => acc
  | S fuel' =>
      let acc' := nat_digit n +:+ acc in
      match (n / 10)%nat with
      | O => acc'
      | q => nat_to_str_aux fuel' q acc'
      end
  end.

Definition nat_to_str (n : nat) : string := nat_to_str_aux (S n) n "".

Definition Z_to_str (z : Z) : string :=
  if z <? 0 then "-" +:+ nat_to_str (Z.to_nat (- z)) else nat_to_str (Z.to_nat z).

(** [str(e)]. *)
Definition exn_str (e : exn) : string :=
  match e with
  | Exception _ msg => msg
  | HTTPException s d => Z_to_str s +:+ ": " +:+ d
  end.

Inductive Result (A : Type) : Type :=
| Return (a : A)
| Raise (e : exn).
Arguments Return {A} a.
Arguments Raise {A} e.

Definition KeyError (k : string) : exn := Exception "KeyError" ("'" +:+ k +:+ "'").

(** ** pathlib: pure paths *)

(** [s.split("/")]. *)
Fixpoint split_slash (s : string) : list string :=
  match s with
  | EmptyString => [EmptyString]
  | String c r =>
      if Ascii.eqb c "/" then EmptyString :: split_slash r
      else match split_slash r with
           | [] => [String c EmptyString]
           | h :: t => String c h :: t
           end
  end.

Fixpoint join_slash (ps : list string) : string :=
  match ps with
  | [] => ""
  | [p] => p
  | p :: rest => p +:+ "/" +:+ join_slash rest
  end.

(** A parsed POSIX path: the root is [""] (relative), ["/"] or ["//"]; the
    parts are the components that remain once empty and ["."] components
    have been dropped. [".."] components are kept. *)
Record PurePath : Type := { root : string; parts : list string }.

(** The root of a path string: exactly two leading slashes are kept, any
    other number of leading slashes collapses to one. *)
Definition splitroot (s : string) : string :=
  match s with
  | String "/" (String "/" (String "/" _)) => "/"
  | String "/" (String "/" _) => "//"
  | String "/" _ => "/"
  | _ => ""
  end.

Definition kept_part (p : string) : bool :=
  negb (String.eqb p "") && negb (String.eqb p ".").

(** [Path(s)]. *)
Definition Path (s : string) : PurePath :=
  {| root := splitroot s; parts := List.filter kept_part (split_slash s) |}.

(** [p / s]: an absolute right operand replaces the left one. *)
Definition truediv (p : PurePath) (s : string) : PurePath :=
  let q := Path s in
  if String.eqb (root q) "" then {| root := root p; parts := parts p ++ parts q |}
  else q.

(** [str(p)]. *)
Definition path_str (p : PurePath) : string :=
  match root p, parts p with
  | EmptyString, [] => "."
  | r, ps => r +:+ join_slash ps
  end.

(** [p.name]. *)
Definition path_name (p : PurePath) : string := List.last (parts p) "".

(** ** What is taken from the Python runtime *)

(** - [json_dumps]: [json.dumps];
    - [py_str]: the builtin [str], as an f-string applies it to a value;
    - [py_repr]: [repr] of a string, which is how [str] of an [OSError]
      prints the path;
    - [pathlib_reraises]: whether [Path.exists()] and [Path.is_file()] let
      an [OSError] through that is neither ENOENT nor ENOTDIR (they do up
      to Python 3.13, and answer [False] on every error from Python 3.14
      on);
    - [os_environ]: the process environment. *)
Class PyRuntime : Type := {
  json_dumps : pyval -> string;
  py_str : pyval -> string;
  py_repr : string -> string;
  pathlib_reraises : bool;
  os_environ : gmap string string
}.

(** ** The file system *)

(** A string stands for the bytes that the file system sees. *)

Inductive Node : Type :=
| File (content : bytes)
| Dir.

(** A location is the list of names from the root directory down; the root
    itself is the empty list and always a directory. *)
Abbreviation Loc := (list string).
Abbreviation FS := (gmap (list string) Node).

Definition node_at (fs : FS) (loc : Loc) : option Node :=
  match loc with
  | [] => Some Dir
  | _ => fs !! loc
  end.

(** The limits of the kernel: the bytes of one component, and the bytes of
    a whole path with its terminating NUL. *)
Definition NAME_MAX : Z := 255.
Definition PATH_MAX : Z := 4096.

Definition name_too_long (p : string) : bool := NAME_MAX <? Z.of_nat (String.length p).
Definition path_too_long (path : string) : bool :=
  PATH_MAX <=? Z.of_nat (String.length path).

Fixpoint has_nul (s : string) : bool :=
  match s with
  | EmptyString => false
  | String c r => Ascii.eqb c "000" || has_nul r
  end.

Fixpoint has_slash (s : string) : bool :=
  match s with
  | EmptyString => false
  | String c r => Ascii.eqb c "/" || has_slash r
  end.

(** A name that an entry of a directory can have: not empty, not ["."] or
    [".."], without ["/"] and without NUL, and of at most [NAME_MAX]
    bytes. *)
Definition plain_name (s : string) : bool :=
  negb (String.eqb s "") && negb (String.eqb s ".") && negb (String.eqb s "..")
  && negb (has_slash s) && negb (has_nul s) && negb (name_too_long s).

(** The name under which [k] is an immediate child of [loc], if it is. *)
Definition child_name (loc k : Loc) : option string :=
  match drop (length loc) k with
  | [n] => if decide (take (length loc) k = loc) then Some n else None
  | _ => None
  end.

(** The entries of the directory at [loc]. A directory holds entries under
    names that an entry can have, and no others. *)
Definition children (fs : FS) (loc : Loc) : list string :=
  omap (fun kn => match child_name loc kn.1 with
                  | Some n => if plain_name n then Some n else None
                  | None => None
                  end) (map_to_list fs).

Section FileSystem.
Context {py : PyRuntime}.

(** An [OSError] that carries a file name, with its [str(e)]. *)
Definition os_error (cls : string) (errno : Z) (strerror path : string) : exn :=
  Exception cls
    ("[Errno " +:+ Z_to_str errno +:+ "] " +:+ strerror +:+ ": " +:+ py_repr path).

Definition FileNotFoundError (path : string) : exn :=
  os_error "FileNotFoundError" 2 "No such file or directory" path.
Definition FileExistsError (path : string) : exn :=
  os_error "FileExistsError" 17 "File exists" path.
Definition NotADirectoryError (path : string) : exn :=
  os_error "NotADirectoryError" 20 "Not a directory" path.
Definition IsADirectoryError (path : string) : exn :=
  os_error "IsADirectoryError" 21 "Is a directory" path.
Definition FileNameTooLong (path : string) : exn :=
  os_error "OSError" 36 "File name too long" path.
Definition ValueError (msg : string) : exn := Exception "ValueError" msg.

(** Path resolution as the kernel does it: each component is looked up in
    the directory reached so far, which has to exist and to be a directory;
    a component of more than [NAME_MAX] bytes is refused; [".."] moves to
    the parent (the root is its own parent). The last component need not
    exist. *)
Fixpoint walk (fs : FS) (path : string) (cur : Loc) (ps : list string) : Result Loc :=
  match ps with
  | [] => Return cur
  | p :: rest =>
      match node_at fs cur with
      | Some Dir =>
          if name_too_long p then Raise (FileNameTooLong path)
          else walk fs path (if String.eqb p ".." then removelast cur else cur ++ [p]) rest
      | Some (File _) => Raise (NotADirectoryError path)
      | None => Raise (FileNotFoundError path)
      end
  end.

(** Resolution of a path object: Python refuses a path with a NUL, the
    kernel a path of [PATH_MAX] bytes or more. Every path of this program
    is absolute. *)
Definition resolve (fs : FS) (p : PurePath) : Result Loc :=
  if has_nul (path_str p) then Raise (ValueError "embedded null byte")
  else if path_too_long (path_str p) then Raise (FileNameTooLong (path_str p))
  else walk fs (path_str p) [] (parts p).

(** [os.stat(p)]. *)
Definition os_stat (fs : FS) (p : PurePath) : Result Node :=
  match resolve fs p with
  | Raise e => Raise e
  | Return loc =>
      match node_at fs loc with
      | Some n => Return n
      | None => Raise (FileNotFoundError (path_str p))
      end
  end.

(** The errors of [stat] that [pathlib] takes for the answer "not there":
    ENOENT and ENOTDIR (EBADF and ELOOP do not arise here). *)
Definition ignore_error (e : exn) : bool :=
  match e with
  | Exception cls _ =>
      String.eqb cls "FileNotFoundError" || String.eqb cls "NotADirectoryError"
  | HTTPException _ _ => false
  end.

Definition is_value_error (e : exn) : bool :=
  match e with
  | Exception cls _ => String.eqb cls "ValueError"
  | HTTPException _ _ => false
  end.

(** What [p.exists()] and [p.is_file()] make of a failing [stat]: [False]
    for a [ValueError] and for the errors above; any other error is raised
    again or answered by [False], depending on the version of Python. *)
Definition stat_failure (e : exn) : Result bool :=
  if is_value_error e || ignore_error e || negb pathlib_reraises
  then Return false else Raise e.

(** [p.exists()]. *)
Definition path_exists (fs : FS) (p : PurePath) : Result bool :=
  match os_stat fs p with
  | Return _ => Return true
  | Raise e => stat_failure e
  end.

(** [p.is_file()]. *)
Definition is_file (fs : FS) (p : PurePath) : Result bool :=
  match os_stat fs p with
  | Return (File _) => Return true
  | Return Dir => Return false
  | Raise e => stat_failure e
  end.

(** [p.stat().st_size]. The size of a directory depends on the file system;
    the program only asks for the size of regular files. *)
Definition st_size (fs : FS) (p : PurePath) : Result Z :=
  match os_stat fs p with
  | Return (File b) => Return (Z.of_nat (length b))
  | Return Dir => Return 0
  | Raise e => Raise e
  end.

(** [with open(p, "wb") as f: f.write(content)]: creates the file or
    truncates it, then writes. *)
Definition open_wb_write (p : PurePath) (content : bytes) (fs : FS) : Result unit * FS :=
  match resolve fs p with
  | Raise e => (Raise e, fs)
  | Return loc =>
      match node_at fs loc with
      | Some Dir => (Raise (IsADirectoryError (path_str p)), fs)
      | _ => (Return tt, <[loc := File content]> fs)
      end
  end.

(** [p.iterdir()], consumed as a list. *)
Definition iterdir (fs : FS) (p : PurePath) : Result (list PurePath) :=
  match resolve fs p with
  | Raise e => Raise e
  | Return loc =>
      match node_at fs loc with
      | Some Dir =>
          Return (List.map (fun n => {| root := root p; parts := parts p ++ [n] |})
                           (children fs loc))
      | Some (File _) => Raise (NotADirectoryError (path_str p))
      | None => Raise (FileNotFoundError (path_str p))
      end
  end.

(** [p.mkdir(exist_ok=True)]: the parent has to exist; an existing
    directory is accepted, an existing file is not. *)
Definition mkdir_exist_ok (p : PurePath) (fs : FS) : Result unit * FS :=
  match resolve fs p with
  | Raise e => (Raise e, fs)
  | Return loc =>
      match node_at fs loc with
      | None => (Return tt, <[loc := Dir]> fs)
      | Some Dir => (Return tt, fs)
      | Some (File _) => (Raise (FileExistsError (path_str p)), fs)
      end
  end.

End FileSystem.

(** ** The container runtime (docker SDK) *)

(** What the agent reads of a container object without asking the runtime:
    [c.name], [c.status] and [c.short_id]. *)
Record Container : Type := {
  name : string;
  status : string;
  short_id : string
}.

(** An image object, of which the agent reads [tags]. *)
Record Image : Type := { tags : list string }.

(** The calls the agent makes on [docker_client]; each one may raise and may
    change the state of the runtime.
    - [containers_list all]: [docker_client.containers.list(all=all)]
    - [containers_get key]: [docker_client.containers.get(key)]
    - [container_start c], [container_stop c]: [c.start()], [c.stop()]
    - [container_image c]: the property [c.image], which asks the runtime
      for the image of the container each time it is read; it is [None]
      for a container without an image. *)
Class DockerClient (D : Type) : Type := {
  containers_list : bool -> D -> Result (list Container) * D;
  containers_get : pyval -> D -> Result Container * D;
  container_start : Container -> D -> Result unit * D;
  container_stop : Container -> D -> Result unit * D;
  container_image : Container -> D -> Result (option Image) * D
}.

(** ** The model backend (ollama) and the webhook receiver (requests) *)

Record ToolCall : Type := {
  tc_name : string;                                 (* tool_call["function"]["name"] *)
  tc_arguments : option (list (string * pyval))     (* ["function"]["arguments"], if present *)
}.

(** [response["message"]]: the reply of the model. *)
Record ModelMessage : Type := {
  msg_content : string;
  msg_tool_calls : option (list ToolCall)
}.

Inductive Message : Type :=
| RoleContent (role content : string)     (* {"role": role, "content": content} *)
| FromModel (m : ModelMessage).           (* a reply of the model, passed back as it is *)

(** The arguments of one [ollama.chat(model=..., messages=..., tools=...)]. *)
Record ChatCall : Type := {
  cc_model : string;
  cc_messages : list Message;
  cc_tools : option pyval
}.

(** The arguments of one [requests.post(url, json=..., timeout=...)]. *)
Record PostCall : Type := {
  pc_url : string;
  pc_json : pyval;
  pc_timeout : Z
}.

(** ** The world and the monad of the handlers *)

Record World (D : Type) : Type := {
  w_fs : FS;
  w_docker : D;
  w_ollama : ChatCall -> Result ModelMessage;   (* what the backend answers *)
  w_ollama_log : list ChatCall;                 (* the calls made so far *)
  w_post : PostCall -> Result Z;                (* status code, or the error raised *)
  w_post_log : list PostCall
}.
Arguments w_fs {D} _.
Arguments w_docker {D} _.
Arguments w_ollama {D} _.
Arguments w_ollama_log {D} _.
Arguments w_post {D} _.
Arguments w_post_log {D} _.

Definition set_fs {D : Type} (fs : FS) (w : World D) : World D :=
  {| w_fs := fs; w_docker := w_docker w; w_ollama := w_ollama w;
     w_ollama_log := w_ollama_log w; w_post := w_post w; w_post_log := w_post_log w |}.
Definition set_docker {D : Type} (d : D) (w : World D) : World D :=
  {| w_fs := w_fs w; w_docker := d; w_ollama := w_ollama w;
     w_ollama_log := w_ollama_log w; w_post := w_post w; w_post_log := w_post_log w |}.
Definition set_post {D : Type} (f : PostCall -> Result Z) (w : World D) : World D :=
  {| w_fs := w_fs w; w_docker := w_docker w; w_ollama := w_ollama w;
     w_ollama_log := w_ollama_log w; w_post := f; w_post_log := w_post_log w |}.
Definition log_ollama {D : Type} (c : ChatCall) (w : World D) : World D :=
  {| w_fs := w_fs w; w_docker := w_docker w; w_ollama := w_ollama w;
     w_ollama_log := w_ollama_log w ++ [c]; w_post := w_post w; w_post_log := w_post_log w |}.
Definition log_post {D : Type} (c : PostCall) (w : World D) : World D :=
  {| w_fs := w_fs w; w_docker := w_docker w; w_ollama := w_ollama w;
     w_ollama_log := w_ollama_log w; w_post := w_post w; w_post_log := w_post_log w ++ [c] |}.

(** A computation either returns or raises; the effects it had on the world
    remain in both cases. *)
Definition M (D A : Type) : Type := World D -> Result A * World D.

Definition ret {D A : Type} (a : A) : M D A := fun w => (Return a, w).
Definition raise {D A : Type} (e : exn) : M D A := fun w => (Raise e, w).
Definition bind {D A B : Type} (m : M D A) (k : A -> M D B) : M D B :=
  fun w => match m w with
           | (Return a, w') => k a w'
           | (Raise e, w') => (Raise e, w')
           end.

(** [try: body / except Exception as e: handler e]. *)
Definition try_except {D A : Type} (body : M D A) (handler : exn -> M D A) : M D A :=
  fun w => match body w with
           | (Return a, w') => (Return a, w')
           | (Raise e, w') => handler e w'
           end.

Declare Scope py_scope.
Delimit Scope py_scope with py.
Notation "x <- m ;; k" := (bind m (fun x => k))
  (at level 100, m at next level, right associativity) : py_scope.
Notation "m ;;; k" := (bind m (fun _ => k))
  (at level 100, right associativity) : py_scope.

(** [out = []; for x in xs: out.append(f(x))]. *)
Fixpoint for_each {D A B : Type} (xs : list A) (f : A -> M D B) : M D (list B) :=
  match xs with
  | [] => ret []
  | x :: rest => (y <- f x ;; ys <- for_each rest f ;; ret (y :: ys))%py
  end.

(** Reading the file system, and running an operation that changes it. *)
Definition read_fs {D A : Type} (f : FS -> Result A) : M D A :=
  fun w => (f (w_fs w), w).
Definition write_fs {D A : Type} (f : FS -> Result A * FS) : M D A :=
  fun w => let '(r, fs') := f (w_fs w) in (r, set_fs fs' w).

(** A call on the docker client. *)
Definition docker_call {D A : Type} (f : D -> Result A * D) : M D A :=
  fun w => let '(r, d') := f (w_docker w) in (r, set_docker d' w).

(** [ollama.chat(...)] and [requests.post(...)]: the call is recorded, then
    the world answers. *)
Definition ollama_chat {D : Type} (c : ChatCall) : M D ModelMessage :=
  fun w => (w_ollama w c, log_ollama c w).
Definition requests_post {D : Type} (c : PostCall) : M D Z :=
  fun w => (w_post w c, log_post c w).

(** [d[k]] on the items of a dict. *)
Definition getitem {D : Type} (kvs : list (string * pyval)) (k : string) : M D pyval :=
  match dict_get k kvs with
  | Some v => ret v
  | None => raise (KeyError k)
  end.

(** ** agent/main.py *)

Record ChatRequest : Type := { message : string }.
Record WebhookPayload : Type := { event : string; data : pyval }.

(** An uploaded file: its [filename] and what [await file.read()] gives. *)
Record UploadFile : Type := { filename : string; upload_content : bytes }.

Definition SHARED_DIR : PurePath := Path "/app/shared".

(** [tools]: the catalog handed to the model. *)
Definition tool_entry (fname description : string) (parameters : pyval) : pyval :=
  PDict [("type", PStr "function");
         ("function", PDict [("name", PStr fname);
                             ("description", PStr description);
                             ("parameters", parameters)])].

Definition no_parameters : pyval :=
  PDict [("type", PStr "object"); ("properties", PDict [])].

Definition container_name_parameter : pyval :=
  PDict [("type", PStr "object");
         ("properties",
           PDict [("container_name",
                    PDict [("type", PStr "string");
                           ("description", PStr "Nome del container")])]);
         ("required", PList [PStr "container_name"])].

Definition tools : pyval :=
  PList [tool_entry "list_containers" "Elenca tutti i container Docker disponibili"
           no_parameters;
         tool_entry "start_container" "Avvia un container Docker specifico"
           container_name_parameter;
         tool_entry "stop_container" "Ferma un container Docker"
           container_name_parameter;
         tool_entry "list_shared_files" "Elenca i file nella directory condivisa"
           no_parameters].

(** The names of the catalog. *)
Definition tool_names : list string :=
  match tools with
  | PList ts =>
      omap (fun t => match field "function" t with
                     | Some f => match field "name" f with
                                 | Some (PStr n) => Some n
                                 | _ => None
                                 end
                     | None => None
                     end) ts
  | _ => []
  end.

Section Agent.
Context {py : PyRuntime} {D : Type} {docker_client : DockerClient D}.

Local Open Scope py_scope.

Definition N8N_WEBHOOK_URL : string :=
  default "http://host.docker.internal:5678" (os_environ !! "N8N_WEBHOOK_URL").

(** Module level: [SHARED_DIR.mkdir(exist_ok=True)]. *)
Definition startup : M D unit := write_fs (mkdir_exist_ok SHARED_DIR).

(** *** Docker tools *)

(** The dict built for one container, given its [image] entry. *)
Definition container_summary (c : Container) (image : string) : pyval :=
  PDict [("name", PStr (name c));
         ("status", PStr (status c));
         ("id", PStr (short_id c));
         ("image", PStr image)].

(** [c.image.tags]: one request to the runtime. *)
Definition image_tags (c : Container) : M D (list string) :=
  image <- docker_call (container_image c) ;;
  match image with
  | Some i => ret (tags i)
  | None => raise (Exception "AttributeError" "'NoneType' object has no attribute 'tags'")
  end.

(** [c.image.tags[0] if c.image.tags else "unknown"]: the condition reads
    the image once, the first branch reads it again. *)
Definition image_entry (c : Container) : M D string :=
  condition <- image_tags c ;;
  match condition with
  | _ :: _ =>
      again <- image_tags c ;;
      match again with
      | t :: _ => ret t
      | [] => raise (Exception "IndexError" "list index out of range")
      end
  | [] => ret "unknown"
  end.

Definition list_containers : M D pyval :=
  containers <- docker_call (containers_list true) ;;
  summaries <- for_each containers
                 (fun c => image <- image_entry c ;; ret (container_summary c image)) ;;
  ret (PList summaries).

Definition start_container (container_name : pyval) : M D pyval :=
  try_except
    (container <- docker_call (containers_get container_name) ;;
     (docker_call (container_start container) ;;;
      ret (PStr ("Container " +:+ py_str container_name +:+ " avviato"))))
    (fun e => ret (PStr ("Errore: " +:+ exn_str e))).

Definition stop_container (container_name : pyval) : M D pyval :=
  try_except
    (container <- docker_call (containers_get container_name) ;;
     (docker_call (container_stop container) ;;;
      ret (PStr ("Container " +:+ py_str container_name +:+ " fermato"))))
    (fun e => ret (PStr ("Errore: " +:+ exn_str e))).

Definition list_shared_files : M D pyval :=
  entries <- read_fs (fun fs => iterdir fs SHARED_DIR) ;;
  names <- for_each entries
             (fun f =>
                regular <- read_fs (fun fs => is_file fs f) ;;
                ret (if regular : bool then Some (PStr (path_name f)) else None)) ;;
  ret (PList (omap id names)).

(** *** API endpoints *)

(** GET /: the handler [root] (the name is taken by the root of a path). *)
Definition root_endpoint : M D pyval :=
  ret (PDict [("message", PStr "Docker AI Agent with n8n Integration");
              ("status", PStr "running")]).

(** The body of the loop over the tool calls of the reply. *)
Definition run_tool_call (tool_call : ToolCall) : M D pyval :=
  let func_name := tc_name tool_call in
  let args := default [] (tc_arguments tool_call) in
  result <-
    (if String.eqb func_name "list_containers" then list_containers
     else if String.eqb func_name "start_container" then
       (a <- getitem args "container_name" ;; start_container a)
     else if String.eqb func_name "stop_container" then
       (a <- getitem args "container_name" ;; stop_container a)
     else if String.eqb func_name "list_shared_files" then list_shared_files
     else ret (PStr "Funzione non trovata")) ;;
  ret (PDict [("function", PStr func_name); ("result", result)]).

(** [response["message"].get("tool_calls")] as a condition: neither absent
    nor empty. *)
Definition requested_tool_calls (m : ModelMessage) : list ToolCall :=
  default [] (msg_tool_calls m).

Definition chat (request : ChatRequest) : M D pyval :=
  try_except
    (response <- ollama_chat
                   {| cc_model := "llama3.1";
                      cc_messages := [RoleContent "user" (message request)];
                      cc_tools := Some tools |} ;;
     match requested_tool_calls response with
     | (_ :: _) as tool_calls =>
         results <- for_each tool_calls run_tool_call ;;
         final_response <- ollama_chat
                   {| cc_model := "llama3.1";
                      cc_messages := [RoleContent "user" (message request);
                                      FromModel response;
                                      RoleContent "tool" (json_dumps (PList results))];
                      cc_tools := None |} ;;
         (try_except
            (requests_post
               {| pc_url := N8N_WEBHOOK_URL +:+ "/webhook/agent-action";
                  pc_json := PDict [("event", PStr "tool_executed");
                                    ("message", PStr (message request));
                                    ("results", PList results)];
                  pc_timeout := 5 |} ;;; ret tt)
            (fun _ => ret tt) ;;;
          ret (PDict [("response", PStr (msg_content final_response));
                      ("tool_results", PList results)]))
     | [] => ret (PDict [("response", PStr (msg_content response))])
     end)
    (fun e => raise (HTTPException 500 (exn_str e))).

Definition upload_file (file : UploadFile) : M D pyval :=
  try_except
    (let file_path := truediv SHARED_DIR (filename file) in
     let content := upload_content file in
     (write_fs (open_wb_write file_path content) ;;;
      (try_except
         (requests_post
            {| pc_url := N8N_WEBHOOK_URL +:+ "/webhook/file-uploaded";
               pc_json := PDict [("filename", PStr (filename file));
                                 ("size", PInt (Z.of_nat (length content)));
                                 ("path", PStr (path_str file_path))];
               pc_timeout := 5 |} ;;; ret tt)
         (fun _ => ret tt) ;;;
       ret (PDict [("message", PStr ("File " +:+ filename file +:+ " caricato"));
                   ("path", PStr (path_str file_path))]))))
    (fun e => raise (HTTPException 500 (exn_str e))).

(** Returns the path handed to [FileResponse]. *)
Definition download_file (fname : string) : M D PurePath :=
  let file_path := truediv SHARED_DIR fname in
  present <- read_fs (fun fs => path_exists fs file_path) ;;
  if negb present then raise (HTTPException 404 "File non trovato")
  else ret file_path.

Definition list_files : M D pyval :=
  entries <- read_fs (fun fs => iterdir fs SHARED_DIR) ;;
  files <- for_each entries
             (fun f =>
                regular <- read_fs (fun fs => is_file fs f) ;;
                if regular : bool then
                  (size <- read_fs (fun fs => st_size fs f) ;;
                   ret (Some (PDict [("name", PStr (path_name f)); ("size", PInt size)])))
                else ret None) ;;
  ret (PDict [("files", PList (omap id files))]).

Definition receive_n8n_webhook (payload : WebhookPayload) : M D pyval :=
  ret (PDict [("received", PBool true);
              ("event", PStr (event payload));
              ("data", data payload)]).

Definition health : M D pyval :=
  ret (PDict [("status", PStr "healthy"); ("n8n_url", PStr N8N_WEBHOOK_URL)]).

End Agent.

(** ** The HTTP surface (FastAPI) *)

Inductive Body : Type :=
| JSONBody (v : pyval)
| FileBody (content : bytes)
| TextBody (s : string).

Record HTTPResponse : Type := { http_status : Z; http_body : Body }.

Definition internal_server_error : HTTPResponse :=
{| http_status := 500; http_body := TextBody "Internal Server Error" |}.

(** What the framework sends for the outcome of a handler that returns a
  dict: the dict with status 200; for an [HTTPException] its status with
  the detail; for any other exception a bare 500. *)
Definition json_response (r : Result pyval) : HTTPResponse :=
match r with
| Return v => {| http_status := 200; http_body := JSONBody v |}
| Raise (HTTPException s d) =>
    {| http_status := s; http_body := JSONBody (PDict [("detail", PStr d)]) |}
| Raise (Exception _ _) => internal_server_error
end.

(** [FileResponse(path)]: the bytes of a regular file; sending anything else
  fails inside the framework. *)
Definition file_response {py : PyRuntime} (fs : FS) (r : Result PurePath) : HTTPResponse :=
match r with
| Return p =>
    match os_stat fs p with
    | Return (File b) => {| http_status := 200; http_body := FileBody b |}
    | _ => internal_server_error
    end
| Raise (HTTPException s d) =>
    {| http_status := s; http_body := JSONBody (PDict [("detail", PStr d)]) |}
| Raise (Exception _ _) => internal_server_error
end.

Section Endpoints.
Context {py : PyRuntime} {D : Type} {docker_client : DockerClient D}.

Definition serve (h : M D pyval) (w : World D) : HTTPResponse * World D :=
  let '(r, w') := h w in (json_response r, w').

(** POST /chat *)
Definition POST_chat (request : ChatRequest) := serve (chat request).
(** POST /files/upload *)
Definition POST_files_upload (file : UploadFile) := serve (upload_file file).
(** GET /files *)
Definition GET_files := serve list_files.
(** GET /files/{filename} *)
Definition GET_files_filename (fname : string) (w : World D) : HTTPResponse * World D :=
  let '(r, w') := download_file fname w in (file_response (w_fs w') r, w').

End Endpoints.

(** The entries of the [files] list of a GET /files response. *)
Definition listed_files (r : HTTPResponse) : list pyval :=
match http_body r with
| JSONBody v => match field "files" v with
                | Some (PList xs) => xs
                | _ => []
                end
| _ => []
end.

Definition file_entry (fname : string) (size : Z) : pyval :=
PDict [("name", PStr fname); ("size", PInt size)].

(** ** An in-memory runtime, to run the handlers *)

Module Fake.

(** The runtime is the list of its containers. *)
Definition running (c : Container) : bool := String.eqb (status c) "running".

Definition fake_list (all : bool) (d : list Container)
  : Result (list Container) * list Container :=
  (Return (if all then d else List.filter running d), d).

Definition fake_get (key : pyval) (d : list Container)
  : Result Container * list Container :=
  match key with
  | PStr s =>
      match List.find (fun c => String.eqb (name c) s || String.eqb (short_id c) s) d with
      | Some c => (Return c, d)
      | None => (Raise (Exception "NotFound" ("No such container: " +:+ s)), d)
      end
  | _ => (Raise (Exception "NullResource" "Resource ID was not provided"), d)
  end.

Definition set_status (st : string) (c : Container) (d : list Container)
  : list Container :=
  List.map (fun c' => if String.eqb (name c') (name c)
                      then {| name := name c'; status := st; short_id := short_id c' |}
                      else c') d.

(** The images of the runtime, by the name of the container: [web] runs an
    image with two tags, [db] an image without tags; the image of any other
    container is gone. *)
Definition fake_image (c : Container) (d : list Container)
  : Result (option Image) * list Container :=
  if String.eqb (name c) "web" then
    (Return (Some {| tags := ["nginx:latest"; "nginx:1.27"] |}), d)
  else if String.eqb (name c) "db" then (Return (Some {| tags := [] |}), d)
  else (Raise (Exception "ImageNotFound" "No such image"), d).

Definition docker : DockerClient (list Container) :=
  {| containers_list := fake_list;
     containers_get := fake_get;
     container_start := fun c d => (Return tt, set_status "running" c d);
     container_stop := fun c d => (Return tt, set_status "exited" c d);
     container_image := fake_image |}.

Definition dquote : string := String (ascii_of_nat 34) EmptyString.

(** A serializer for values whose strings need no escaping. *)
Fixpoint dumps (v : pyval) : string :=
  match v with
  | PNone => "null"
  | PBool true => "true"
  | PBool false => "false"
  | PInt n => Z_to_str n
  | PStr s => dquote +:+ s +:+ dquote
  | PList xs =>
      "[" +:+ (fix items (l : list pyval) : string :=
                 match l with
                 | [] => ""
                 | [x] => dumps x
                 | x :: r => dumps x +:+ ", " +:+ items r
                 end) xs +:+ "]"
  | PDict kvs =>
      "{" +:+ (fix items (l : list (string * pyval)) : string :=
                 match l with
                 | [] => ""
                 | [(k, x)] => dquote +:+ k +:+ dquote +:+ ": " +:+ dumps x
                 | (k, x) :: r =>
                     dquote +:+ k +:+ dquote +:+ ": " +:+ dumps x +:+ ", " +:+ items r
                 end) kvs +:+ "}"
  end.

Definition str (v : pyval) : string :=
  match v with
  | PStr s => s
  | PNone => "None"
  | _ => dumps v
  end.

(** [repr] for strings without quotes, backslashes and characters that
    are not printable. *)
Definition repr (s : string) : string := "'" +:+ s +:+ "'".

(** A Python up to 3.13. *)
Definition python : PyRuntime :=
  {| json_dumps := dumps; py_str := str; py_repr := repr;
     pathlib_reraises := true; os_environ := ∅ |}.

(** A machine on which the service has started: /app/shared exists. *)
Definition disk : FS := <[ ["app"; "shared"] := Dir ]> (<[ ["app"] := Dir ]> ∅).

Definition web : Container :=
  {| name := "web"; status := "running"; short_id := "3f2a9c1b7d10" |}.
Definition db : Container :=
  {| name := "db"; status := "exited"; short_id := "9b1e4d2c8a77" |}.

Definition world (model : ChatCall -> Result ModelMessage)
    (post : PostCall -> Result Z) : World (list Container) :=
  {| w_fs := disk; w_docker := [web; db]; w_ollama := model; w_ollama_log := [];
     w_post := post; w_post_log := [] |}.

Definition unreachable : PostCall -> Result Z :=
  fun _ => Raise (Exception "ConnectionError" "Max retries exceeded").
Definition accepted : PostCall -> Result Z := fun _ => Return 200.

(** A model backend that answers the call with the catalog by [first] and
    the call without it by [second]. *)
Definition scripted (first second : Result ModelMessage) (c : ChatCall)
  : Result ModelMessage :=
  match cc_tools c with
  | Some _ => first
  | None => second
  end.

Definition says (content : string) : Result ModelMessage :=
  Return {| msg_content := content; msg_tool_calls := None |}.

Definition requests (tool_calls : list ToolCall) : ModelMessage :=
  {| msg_content := ""; msg_tool_calls := Some tool_calls |}.

Definition call (fname : string) (args : list (string * pyval)) : ToolCall :=
  {| tc_name := fname; tc_arguments := Some args |}.

Definition call_without_arguments (fname : string) : ToolCall :=
  {| tc_name := fname; tc_arguments := None |}.

(** The machine with a subdirectory [/app/shared/archive]. *)
Definition disk_with_archive : FS := <[ ["app"; "shared"; "archive"] := Dir ]> disk.

Fixpoint replicate_char (n : nat) (c : ascii) : string :=
  match n with
  | O => EmptyString
  | S n' => String c (replicate_char n' c)
  end.

(** A name of 256 bytes. *)
Definition long_name : string := replicate_char 256 "a".

Definition report_csv : UploadFile :=
  {| filename := "report.csv";
     upload_content := [Byte.x69; Byte.x64; Byte.x2c; Byte.x6e; Byte.x61; Byte.x6d;
                        Byte.x65; Byte.x0a; Byte.x31; Byte.x2c; Byte.x61; Byte.x0a] |}.

End Fake.

(** ** The vocabulary of the properties *)

(** The location of the shared directory and the path of its entry [n]. *)
Definition shared_loc : Loc := ["app"; "shared"].

Definition child_path (n : string) : PurePath :=
  {| root := "/"; parts := (shared_loc ++ [n])%list |}.

(** The shared directory exists: [SHARED_DIR.is_dir()]. *)
Definition shared_dir_ready {py : PyRuntime} (fs : FS) : Prop :=
  os_stat fs SHARED_DIR = Return Dir.

Definition ok_json (v : pyval) : HTTPResponse :=
  {| http_status := 200; http_body := JSONBody v |}.

Definition error_json (status_code : Z) (detail : string) : HTTPResponse :=
  {| http_status := status_code; http_body := JSONBody (PDict [("detail", PStr detail)]) |}.

(** What [list_files] makes of one entry of the directory. *)
Definition listing_entry {py : PyRuntime} (fs : FS) (f : PurePath) : option pyval :=
  match os_stat fs f with
  | Return (File b) => Some (file_entry (path_name f) (Z.of_nat (length b)))
  | _ => None
  end.

(** A world of the in-memory runtime. *)
Abbreviation FakeWorld := (World (list Container)).

(** The entry of a tool call whose function is not in the catalog. *)
Definition not_found_entry (tc : ToolCall) : pyval :=
  PDict [("function", PStr (tc_name tc)); ("result", PStr "Funzione non trovata")].

Section Vocabulary.
Context {py : PyRuntime} {D : Type} {docker_client : DockerClient D}.

(** A computation that leaves everything but the container runtime as it
    found it. *)
Definition docker_only {A : Type} (m : M D A) : Prop :=
  forall w, exists d, (m w).2 = set_docker d w.

(** A computation that does not look at the outcome of the webhook calls:
    replacing the receiver before or after it is the same. *)
Definition post_blind {A : Type} (m : M D A) : Prop :=
  forall w f, m (set_post f w) = ((m w).1, set_post f (m w).2).

(** The failure of a request: status 500 with the text of the error. *)
Definition failure {A : Type} (e : exn) (w : World D) : Result A * World D :=
  (Raise (HTTPException 500 (exn_str e)), w).

(** The first call of [chat]: the message of the user and the catalog. *)
Definition first_call (request : ChatRequest) : ChatCall :=
  {| cc_model := "llama3.1";
     cc_messages := [RoleContent "user" (message request)];
     cc_tools := Some tools |}.

(** The second call: the message of the user, the reply of the model and
    one message of role tool with the serialized results. *)
Definition second_call (request : ChatRequest) (response : ModelMessage)
    (results : list pyval) : ChatCall :=
  {| cc_model := "llama3.1";
     cc_messages := [RoleContent "user" (message request);
                     FromModel response;
                     RoleContent "tool" (json_dumps (PList results))];
     cc_tools := None |}.

(** The notification of [chat]. *)
Definition agent_action (request : ChatRequest) (results : list pyval) : PostCall :=
  {| pc_url := N8N_WEBHOOK_URL +:+ "/webhook/agent-action";
     pc_json := PDict [("event", PStr "tool_executed");
                       ("message", PStr (message request));
                       ("results", PList results)];
     pc_timeout := 5 |}.

(** The notification of [upload_file]. *)
Definition file_uploaded (file : UploadFile) : PostCall :=
  let file_path := truediv SHARED_DIR (filename file) in
  {| pc_url := N8N_WEBHOOK_URL +:+ "/webhook/file-uploaded";
     pc_json := PDict [("filename", PStr (filename file));
                       ("size", PInt (Z.of_nat (length (upload_content file))));
                       ("path", PStr (path_str file_path))];
     pc_timeout := 5 |}.

(** The tool calls run one after the other, each one in the world that the
    previous one left, and give one result each. *)
Inductive tool_run : World D -> list ToolCall -> list pyval -> World D -> Prop :=
| tool_run_nil (w : World D) : tool_run w [] [] w
| tool_run_cons (w w1 w2 : World D) (tc : ToolCall) (tcs : list ToolCall)
    (r : pyval) (rs : list pyval) :
    run_tool_call tc w = (Return r, w1) ->
    tool_run w1 tcs rs w2 ->
    tool_run w (tc :: tcs) (r :: rs) w2.

End Vocabulary.

(** * Properties *)

(** ** pathlib and the file system *)

Lemma SHARED_DIR_eq : SHARED_DIR = {| root := "/"; parts := shared_loc |}.
Proof. reflexivity. Qed.

Lemma split_slash_plain (s : string) :
  has_slash s = false -> split_slash s = [s].
Proof.
  induction s as [|c r IH]; simpl; [reflexivity|].
  destruct (Ascii.eqb c "/"); simpl; [discriminate|].
  intros Hr. rewrite (IH Hr). reflexivity.
Qed.

Lemma splitroot_plain (s : string) :
  has_slash s = false -> splitroot s = "".
Proof.
  destruct s as [|c r]; [reflexivity|].
  simpl. destruct (Ascii.eqb c "/") eqn:E; [discriminate|].
  intros _. destruct c as [[] [] [] [] [] [] [] []]; try reflexivity; discriminate E.
Qed.

Lemma plain_name_inv (s : string) :
  plain_name s = true ->
  s <> "" /\ s <> "." /\ s <> ".." /\ has_slash s = false /\ has_nul s = false.
Proof.
  unfold plain_name. rewrite !andb_true_iff, !negb_true_iff.
  intros [[[[[H1 H2] H3] H4] H5] _].
  repeat split; try assumption; intros ->; discriminate.
Qed.

Lemma plain_name_short (s : string) :
  plain_name s = true -> name_too_long s = false.
Proof.
  unfold plain_name. rewrite !andb_true_iff, !negb_true_iff. intros [_ H]. exact H.
Qed.

Lemma kept_part_plain (n : string) : plain_name n = true -> kept_part n = true.
Proof.
  unfold plain_name, kept_part. rewrite !andb_true_iff.
  intros [[[[[H1 H2] _] _] _] _]. split; assumption.
Qed.

Lemma Path_plain (s : string) :
  plain_name s = true -> Path s = {| root := ""; parts := [s] |}.
Proof.
  intros H. unfold Path.
  pose proof (kept_part_plain _ H) as Hk.
  apply plain_name_inv in H as (_ & _ & _ & Hs & _).
  rewrite (splitroot_plain _ Hs), (split_slash_plain _ Hs).
  simpl. rewrite Hk. reflexivity.
Qed.

(** For a plain name, [SHARED_DIR / s] is the entry [s] of the shared
    directory. *)
Lemma truediv_plain (s : string) :
  plain_name s = true ->
  truediv SHARED_DIR s = {| root := "/"; parts := (shared_loc ++ [s])%list |}.
Proof.
  intros H. unfold truediv. rewrite (Path_plain _ H). reflexivity.
Qed.

Lemma path_str_child (s : string) :
  path_str {| root := "/"; parts := (shared_loc ++ [s])%list |} = "/app/shared/" +:+ s.
Proof. reflexivity. Qed.

Lemma has_nul_child (s : string) :
  has_nul ("/app/shared/" +:+ s) = has_nul s.
Proof. reflexivity. Qed.

(** The path of an entry of the shared directory is far from [PATH_MAX]. *)
Lemma path_too_long_child (s : string) :
  name_too_long s = false -> path_too_long ("/app/shared/" +:+ s) = false.
Proof.
  unfold name_too_long, path_too_long, NAME_MAX, PATH_MAX. intros H.
  apply Z.ltb_ge in H. apply Z.leb_gt.
  change (String.length ("/app/shared/" +:+ s)) with (12 + String.length s)%nat.
  lia.
Qed.

Section PathFacts.
Context {py : PyRuntime}.

(** The first two steps of the resolution of a path under [/app/shared]. *)
Lemma walk_shared (fs : FS) (path : string) (rest : list string) :
  walk fs path [] ("app" :: "shared" :: rest) =
  match fs !! ["app"] with
  | Some Dir => walk fs path shared_loc rest
  | Some (File _) => Raise (NotADirectoryError path)
  | None => Raise (FileNotFoundError path)
  end.
Proof. reflexivity. Qed.

Lemma walk_name (fs : FS) (path : string) (cur : Loc) (n : string) :
  node_at fs cur = Some Dir -> name_too_long n = false -> n <> ".." ->
  walk fs path cur [n] = Return (cur ++ [n])%list.
Proof.
  intros Hc Hl Hn. cbn [walk]. rewrite Hc, Hl.
  destruct (String.eqb n "..") eqn:E; [apply String.eqb_eq in E; contradiction|].
  reflexivity.
Qed.

Lemma resolve_SHARED_DIR (fs : FS) :
  resolve fs SHARED_DIR =
  match fs !! ["app"] with
  | Some Dir => Return shared_loc
  | Some (File _) => Raise (NotADirectoryError "/app/shared")
  | None => Raise (FileNotFoundError "/app/shared")
  end.
Proof. reflexivity. Qed.

Lemma shared_dir_ready_iff (fs : FS) :
  shared_dir_ready fs <-> fs !! ["app"] = Some Dir /\ fs !! shared_loc = Some Dir.
Proof.
  assert (Hn : node_at fs shared_loc = fs !! shared_loc) by reflexivity.
  unfold shared_dir_ready, os_stat. rewrite resolve_SHARED_DIR.
  split.
  - destruct (fs !! ["app"]) as [[b|]|]; try discriminate.
    rewrite Hn. destruct (fs !! shared_loc) as [[b|]|]; try discriminate. auto.
  - intros [-> H2]. rewrite Hn, H2. reflexivity.
Qed.

Lemma shared_dir_ready_inv (fs : FS) :
  shared_dir_ready fs -> fs !! ["app"] = Some Dir /\ fs !! shared_loc = Some Dir.
Proof. apply shared_dir_ready_iff. Qed.

Lemma resolve_shared (fs : FS) :
  shared_dir_ready fs -> resolve fs SHARED_DIR = Return shared_loc.
Proof.
  intros H. apply shared_dir_ready_inv in H as [H1 H2].
  rewrite resolve_SHARED_DIR, H1. reflexivity.
Qed.

(** The resolution of the path of an entry of the shared directory. *)
Lemma resolve_child_cases (fs : FS) (s : string) :
  plain_name s = true ->
  resolve fs {| root := "/"; parts := (shared_loc ++ [s])%list |} =
  match fs !! ["app"] with
  | Some Dir =>
      match fs !! shared_loc with
      | Some Dir => Return (shared_loc ++ [s])%list
      | Some (File _) => Raise (NotADirectoryError ("/app/shared/" +:+ s))
      | None => Raise (FileNotFoundError ("/app/shared/" +:+ s))
      end
  | Some (File _) => Raise (NotADirectoryError ("/app/shared/" +:+ s))
  | None => Raise (FileNotFoundError ("/app/shared/" +:+ s))
  end.
Proof.
  intros Hs. pose proof (plain_name_short _ Hs) as Hl.
  apply plain_name_inv in Hs as (_ & _ & Hdd & _ & Hnul).
  unfold resolve. rewrite path_str_child, has_nul_child, Hnul, (path_too_long_child _ Hl).
  change (parts _) with ("app" :: "shared" :: [s]). rewrite walk_shared.
  destruct (fs !! ["app"]) as [[b|]|]; try reflexivity.
  cbn [walk]. change (node_at fs shared_loc) with (fs !! shared_loc).
  destruct (fs !! shared_loc) as [[b|]|]; try reflexivity.
  rewrite Hl. destruct (String.eqb s "..") eqn:E; [apply String.eqb_eq in E; contradiction|].
  reflexivity.
Qed.

Lemma resolve_child (fs : FS) (s : string) :
  shared_dir_ready fs -> plain_name s = true ->
  resolve fs {| root := "/"; parts := (shared_loc ++ [s])%list |} = Return (shared_loc ++ [s])%list.
Proof.
  intros H Hs. apply shared_dir_ready_inv in H as [H1 H2].
  rewrite (resolve_child_cases _ _ Hs), H1, H2. reflexivity.
Qed.

End PathFacts.

(** ** The monad *)

Section MonadFacts.
Context {D : Type}.

Local Open Scope py_scope.

Lemma set_docker_id (w : World D) : set_docker (w_docker w) w = w.
Proof. destruct w; reflexivity. Qed.

Lemma docker_only_ret {A : Type} (a : A) : docker_only (D:=D) (ret a).
Proof. intros w. exists (w_docker w). symmetry. apply set_docker_id. Qed.

Lemma docker_only_raise {A : Type} (e : exn) : docker_only (@raise D A e).
Proof. intros w. exists (w_docker w). symmetry. apply set_docker_id. Qed.

Lemma docker_only_bind {A B : Type} (m : M D A) (k : A -> M D B) :
  docker_only m -> (forall a, docker_only (k a)) -> docker_only (bind m k).
Proof.
  intros Hm Hk w. unfold bind. destruct (Hm w) as [d Hd].
  destruct (m w) as [[a|e] w1]; simpl in Hd; subst w1.
  - destruct (Hk a (set_docker d w)) as [d' Hd']. exists d'. rewrite Hd'. reflexivity.
  - exists d. reflexivity.
Qed.

Lemma docker_only_try {A : Type} (m : M D A) (h : exn -> M D A) :
  docker_only m -> (forall e, docker_only (h e)) -> docker_only (try_except m h).
Proof.
  intros Hm Hh w. unfold try_except. destruct (Hm w) as [d Hd].
  destruct (m w) as [[a|e] w1]; simpl in Hd; subst w1.
  - exists d. reflexivity.
  - destruct (Hh e (set_docker d w)) as [d' Hd']. exists d'. rewrite Hd'. reflexivity.
Qed.

Lemma docker_only_for_each {A B : Type} (xs : list A) (f : A -> M D B) :
  (forall x, docker_only (f x)) -> docker_only (for_each xs f).
Proof.
  intros Hf. induction xs as [|x xs IH]; simpl.
  - apply docker_only_ret.
  - apply docker_only_bind; [apply Hf|]. intros y.
    apply docker_only_bind; [apply IH|]. intros ys. apply docker_only_ret.
Qed.

Lemma docker_only_read_fs {A : Type} (f : FS -> Result A) : docker_only (D:=D) (read_fs f).
Proof. intros w. exists (w_docker w). symmetry. apply set_docker_id. Qed.

Lemma docker_only_call {A : Type} (f : D -> Result A * D) : docker_only (docker_call f).
Proof.
  intros w. unfold docker_call. destruct (f (w_docker w)) as [r d]. exists d. reflexivity.
Qed.

Lemma post_blind_ret {A : Type} (a : A) : post_blind (@ret D A a).
Proof. intros w f. reflexivity. Qed.

Lemma post_blind_raise {A : Type} (e : exn) : post_blind (@raise D A e).
Proof. intros w f. reflexivity. Qed.

Lemma post_blind_bind {A B : Type} (m : M D A) (k : A -> M D B) :
  post_blind m -> (forall a, post_blind (k a)) -> post_blind (bind m k).
Proof.
  intros Hm Hk w f. unfold bind. rewrite Hm.
  destruct (m w) as [[a|e] w1]; simpl; [apply Hk | reflexivity].
Qed.

Lemma post_blind_try {A : Type} (m : M D A) (h : exn -> M D A) :
  post_blind m -> (forall e, post_blind (h e)) -> post_blind (try_except m h).
Proof.
  intros Hm Hh w f. unfold try_except. rewrite Hm.
  destruct (m w) as [[a|e] w1]; simpl; [reflexivity | apply Hh].
Qed.

Lemma post_blind_for_each {A B : Type} (xs : list A) (f : A -> M D B) :
  (forall x, post_blind (f x)) -> post_blind (for_each xs f).
Proof.
  intros Hf. induction xs as [|x xs IH]; simpl.
  - apply post_blind_ret.
  - apply post_blind_bind; [apply Hf|]. intros y.
    apply post_blind_bind; [apply IH|]. intros ys. apply post_blind_ret.
Qed.

Lemma post_blind_read_fs {A : Type} (f : FS -> Result A) : post_blind (@read_fs D A f).
Proof. intros w g. reflexivity. Qed.

Lemma post_blind_write_fs {A : Type} (f : FS -> Result A * FS) :
  post_blind (@write_fs D A f).
Proof.
  intros w g. unfold write_fs. simpl. destruct (f (w_fs w)) as [r fs']. reflexivity.
Qed.

Lemma post_blind_docker_call {A : Type} (f : D -> Result A * D) :
  post_blind (docker_call f).
Proof.
  intros w g. unfold docker_call. simpl. destruct (f (w_docker w)) as [r d]. reflexivity.
Qed.

Lemma post_blind_ollama (c : ChatCall) : post_blind (@ollama_chat D c).
Proof. intros w g. reflexivity. Qed.

(** [try: requests.post(...) / except: pass] always completes, whatever the
    receiver does, and only leaves a trace in the log of the calls. *)
Lemma post_swallowed (c : PostCall) (w : World D) :
  try_except (requests_post c ;;; ret tt) (fun _ => ret tt) w = (Return tt, log_post c w).
Proof.
  unfold try_except, bind, requests_post, ret. destruct (w_post w c); reflexivity.
Qed.

Lemma post_blind_swallowed (c : PostCall) :
  post_blind (try_except (@requests_post D c ;;; ret tt) (fun _ => ret tt)).
Proof. intros w f. rewrite !post_swallowed. reflexivity. Qed.

(** A loop whose body reads the world without changing it and never raises
    is a [map]. *)
Lemma for_each_pure {A B : Type} (xs : list A) (f : A -> M D B) (g : A -> B) (w : World D) :
  (forall x, f x w = (Return (g x), w)) ->
  for_each xs f w = (Return (List.map g xs), w).
Proof.
  intros Hf. induction xs as [|x xs IH]; simpl; [reflexivity|].
  unfold bind. rewrite Hf, IH. reflexivity.
Qed.

End MonadFacts.

(** ** The container tools *)

Section DockerTools.
Context {py : PyRuntime} {D : Type} {docker_client : DockerClient D}.

Local Open Scope py_scope.




Lemma list_containers_run (w : World D) :
  list_containers w =
  match containers_list true (w_docker w) with
  | (Return cs, d) =>
      match for_each cs (fun c => image <- image_entry c ;; ret (container_summary c image))
                     (set_docker d w) with
      | (Return summaries, w') => (Return (PList summaries), w')
      | (Raise e, w') => (Raise e, w')
      end
  | (Raise e, d) => (Raise e, set_docker d w)
  end.
Proof.
  unfold list_containers. unfold bind at 1. unfold docker_call at 1.
  destruct (containers_list true (w_docker w)) as [[cs|e] d]; [|reflexivity].
  unfold bind at 1.
  destruct (for_each cs _ (set_docker d w)) as [[summaries|e] w']; reflexivity.
Qed.

Lemma list_containers_returns_list (w w' : World D) (v : pyval) :
  list_containers w = (Return v, w') -> exists summaries, v = PList summaries.
Proof.
  rewrite list_containers_run.
  destruct (containers_list true (w_docker w)) as [[cs|e] d]; [|discriminate].
  destruct (for_each cs _ (set_docker d w)) as [[summaries|e] w1]; [|discriminate].
  intros H. injection H as <- _. eauto.
Qed.




Lemma start_container_run (key : pyval) (w : World D) :
  start_container key w =
  match containers_get key (w_docker w) with
  | (Raise e, d1) => (Return (PStr ("Errore: " +:+ exn_str e)), set_docker d1 w)
  | (Return c, d1) =>
      match container_start c d1 with
      | (Raise e, d2) => (Return (PStr ("Errore: " +:+ exn_str e)), set_docker d2 w)
      | (Return _, d2) =>
          (Return (PStr ("Container " +:+ py_str key +:+ " avviato")), set_docker d2 w)
      end
  end.
Proof.
  unfold start_container, try_except, bind, docker_call.
  destruct (containers_get key (w_docker w)) as [[c|e] d1]; [|reflexivity].
  simpl. destruct (container_start c d1) as [[u|e] d2]; reflexivity.
Qed.

Lemma stop_container_run (key : pyval) (w : World D) :
  stop_container key w =
  match containers_get key (w_docker w) with
  | (Raise e, d1) => (Return (PStr ("Errore: " +:+ exn_str e)), set_docker d1 w)
  | (Return c, d1) =>
      match container_stop c d1 with
      | (Raise e, d2) => (Return (PStr ("Errore: " +:+ exn_str e)), set_docker d2 w)
      | (Return _, d2) =>
          (Return (PStr ("Container " +:+ py_str key +:+ " fermato")), set_docker d2 w)
      end
  end.
Proof.
  unfold stop_container, try_except, bind, docker_call.
  destruct (containers_get key (w_docker w)) as [[c|e] d1]; [|reflexivity].
  simpl. destruct (container_stop c d1) as [[u|e] d2]; reflexivity.
Qed.

(** C3. For every container name and every behaviour of the runtime,
    [start_container] and [stop_container] return a string and never
    raise. The string is the confirmation exactly when the lookup of the
    container and the call that starts or stops it both succeed; when the
    lookup raises (an unknown name, for one) or the runtime call raises,
    the string is ["Errore: "] followed by the text of that error. The
    runtime is asked in both cases and left in the state in which these
    calls left it. *)
Theorem start_stop_return_a_string :
  forall (container_name : pyval) (w : World D),
    start_container container_name w =
      match containers_get container_name (w_docker w) with
      | (Raise e, d) => (Return (PStr ("Errore: " +:+ exn_str e)), set_docker d w)
      | (Return c, d) =>
          match container_start c d with
          | (Raise e, d') => (Return (PStr ("Errore: " +:+ exn_str e)), set_docker d' w)
          | (Return _, d') =>
              (Return (PStr ("Container " +:+ py_str container_name +:+ " avviato")),
               set_docker d' w)
          end
      end /\
    stop_container container_name w =
      match containers_get container_name (w_docker w) with
      | (Raise e, d) => (Return (PStr ("Errore: " +:+ exn_str e)), set_docker d w)
      | (Return c, d) =>
          match container_stop c d with
          | (Raise e, d') => (Return (PStr ("Errore: " +:+ exn_str e)), set_docker d' w)
          | (Return _, d') =>
              (Return (PStr ("Container " +:+ py_str container_name +:+ " fermato")),
               set_docker d' w)
          end
      end /\
    (exists s, (start_container container_name w).1 = Return (PStr s)) /\
    (exists s, (stop_container container_name w).1 = Return (PStr s)).
Proof.
  intros key w. split; [apply start_container_run|]. split; [apply stop_container_run|].
  rewrite start_container_run, stop_container_run. split.
  - destruct (containers_get key (w_docker w)) as [[c|e] d1]; [|eauto].
    destruct (container_start c d1) as [[u|e] d2]; eauto.
  - destruct (containers_get key (w_docker w)) as [[c|e] d1]; [|eauto].
    destruct (container_stop c d1) as [[u|e] d2]; eauto.
Qed.


End DockerTools.

(** ** The chat orchestrator *)

Section Chat.
Context {py : PyRuntime} {D : Type} {docker_client : DockerClient D}.

Local Open Scope py_scope.

Lemma for_each_tool_run (tcs : list ToolCall) (w w' : World D) (rs : list pyval) :
  for_each tcs run_tool_call w = (Return rs, w') <-> tool_run w tcs rs w'.
Proof.
  split.
  - revert w rs. induction tcs as [|tc tcs IH]; intros w rs H; simpl in H.
    + injection H as <- <-. constructor.
    + unfold bind in H. destruct (run_tool_call tc w) as [[r|e] w1] eqn:E1; [|discriminate].
      destruct (for_each tcs run_tool_call w1) as [[rs'|e] w2] eqn:E2; [|discriminate].
      injection H as <- <-. econstructor; [exact E1 | apply IH, E2].
  - induction 1 as [w|w w1 w2 tc tcs r rs H1 H2 IH]; simpl; [reflexivity|].
    unfold bind. rewrite H1, IH. reflexivity.
Qed.

Lemma run_tool_call_entry (tc : ToolCall) (w w' : World D) (v : pyval) :
  run_tool_call tc w = (Return v, w') ->
  exists result, v = PDict [("function", PStr (tc_name tc)); ("result", result)].
Proof.
  unfold run_tool_call. unfold bind at 1.
  match goal with |- context [match ?m w with _ => _ end] => destruct (m w) as [[r|e] w1] end;
    [|discriminate].
  intros H. injection H as <- _. eauto.
Qed.

Lemma tool_run_entries (w w' : World D) (tcs : list ToolCall) (rs : list pyval) :
  tool_run w tcs rs w' ->
  length rs = length tcs /\
  forall i tc, tcs !! i = Some tc ->
    exists e result, rs !! i = Some e /\
      e = PDict [("function", PStr (tc_name tc)); ("result", result)].
Proof.
  induction 1 as [w|w w1 w2 tc tcs r rs H1 H2 [IHl IH]].
  - split; [reflexivity|]. intros i tc H. rewrite lookup_nil in H. discriminate.
  - split; [simpl; congruence|]. intros [|i] tc' H; simpl in H.
    + injection H as <-. destruct (run_tool_call_entry _ _ _ _ H1) as [res ->].
      eexists _, res. split; reflexivity.
    + apply IH, H.
Qed.

Lemma unknown_name (s : string) :
  s ∉ tool_names ->
  String.eqb s "list_containers" = false /\ String.eqb s "start_container" = false /\
  String.eqb s "stop_container" = false /\ String.eqb s "list_shared_files" = false.
Proof.
  intros H. change tool_names with
    ["list_containers"; "start_container"; "stop_container"; "list_shared_files"] in H.
  repeat split; apply String.eqb_neq; intros ->; apply H; set_solver.
Qed.

Lemma run_tool_call_unknown (tc : ToolCall) (w : World D) :
  tc_name tc ∉ tool_names -> run_tool_call tc w = (Return (not_found_entry tc), w).
Proof.
  intros H. apply unknown_name in H as (H1 & H2 & H3 & H4).
  unfold run_tool_call. rewrite H1, H2, H3, H4. reflexivity.
Qed.

Lemma docker_only_list_shared_files : docker_only (D:=D) list_shared_files.
Proof.
  unfold list_shared_files.
  apply docker_only_bind; [apply docker_only_read_fs|]. intros es.
  apply docker_only_bind.
  - apply docker_only_for_each. intros f.
    apply docker_only_bind; [apply docker_only_read_fs|]. intros b. apply docker_only_ret.
  - intros ns. apply docker_only_ret.
Qed.

Lemma docker_only_image_tags (c : Container) : docker_only (image_tags c).
Proof.
  unfold image_tags. apply docker_only_bind; [apply docker_only_call|].
  intros [i|]; [apply docker_only_ret | apply docker_only_raise].
Qed.

Lemma docker_only_list_containers : docker_only list_containers.
Proof.
  unfold list_containers. apply docker_only_bind; [apply docker_only_call|]. intros cs.
  apply docker_only_bind; [|intros l; apply docker_only_ret].
  apply docker_only_for_each. intros c.
  apply docker_only_bind; [|intros i; apply docker_only_ret].
  unfold image_entry. apply docker_only_bind; [apply docker_only_image_tags|].
  intros [|t ts]; [apply docker_only_ret|].
  apply docker_only_bind; [apply docker_only_image_tags|].
  intros [|t' ts']; [apply docker_only_raise | apply docker_only_ret].
Qed.

Lemma post_blind_image_tags (c : Container) : post_blind (image_tags c).
Proof.
  unfold image_tags. apply post_blind_bind; [apply post_blind_docker_call|].
  intros [i|]; [apply post_blind_ret | apply post_blind_raise].
Qed.

Lemma post_blind_list_containers : post_blind list_containers.
Proof.
  unfold list_containers. apply post_blind_bind; [apply post_blind_docker_call|]. intros cs.
  apply post_blind_bind; [|intros l; apply post_blind_ret].
  apply post_blind_for_each. intros c.
  apply post_blind_bind; [|intros i; apply post_blind_ret].
  unfold image_entry. apply post_blind_bind; [apply post_blind_image_tags|].
  intros [|t ts]; [apply post_blind_ret|].
  apply post_blind_bind; [apply post_blind_image_tags|].
  intros [|t' ts']; [apply post_blind_raise | apply post_blind_ret].
Qed.

Lemma docker_only_getitem (kvs : list (string * pyval)) (k : string) :
  docker_only (@getitem D kvs k).
Proof.
  unfold getitem. destruct (dict_get k kvs); [apply docker_only_ret | apply docker_only_raise].
Qed.

Lemma docker_only_start (key : pyval) : docker_only (start_container key).
Proof.
  unfold start_container. apply docker_only_try.
  - apply docker_only_bind; [apply docker_only_call|]. intros c.
    apply docker_only_bind; [apply docker_only_call|]. intros _. apply docker_only_ret.
  - intros e. apply docker_only_ret.
Qed.

Lemma docker_only_stop (key : pyval) : docker_only (stop_container key).
Proof.
  unfold stop_container. apply docker_only_try.
  - apply docker_only_bind; [apply docker_only_call|]. intros c.
    apply docker_only_bind; [apply docker_only_call|]. intros _. apply docker_only_ret.
  - intros e. apply docker_only_ret.
Qed.

(** A tool call changes nothing but the state of the container runtime. *)
Lemma docker_only_run_tool_call (tc : ToolCall) : docker_only (run_tool_call tc).
Proof.
  unfold run_tool_call. apply docker_only_bind; [|intros r; apply docker_only_ret].
  repeat match goal with |- docker_only (if ?b then _ else _) => destruct b end.
  - apply docker_only_list_containers.
  - apply docker_only_bind; [apply docker_only_getitem | apply docker_only_start].
  - apply docker_only_bind; [apply docker_only_getitem | apply docker_only_stop].
  - apply docker_only_list_shared_files.
  - apply docker_only_ret.
Qed.

Lemma post_blind_run_tool_call (tc : ToolCall) : post_blind (run_tool_call tc).
Proof.
  unfold run_tool_call. apply post_blind_bind; [|intros r; apply post_blind_ret].
  repeat match goal with |- post_blind (if ?b then _ else _) => destruct b end.
  - apply post_blind_list_containers.
  - apply post_blind_bind.
    + unfold getitem. destruct (dict_get _ _); [apply post_blind_ret | apply post_blind_raise].
    + intros a. unfold start_container. apply post_blind_try.
      * apply post_blind_bind; [apply post_blind_docker_call|]. intros c.
        apply post_blind_bind; [apply post_blind_docker_call|]. intros _. apply post_blind_ret.
      * intros e. apply post_blind_ret.
  - apply post_blind_bind.
    + unfold getitem. destruct (dict_get _ _); [apply post_blind_ret | apply post_blind_raise].
    + intros a. unfold stop_container. apply post_blind_try.
      * apply post_blind_bind; [apply post_blind_docker_call|]. intros c.
        apply post_blind_bind; [apply post_blind_docker_call|]. intros _. apply post_blind_ret.
      * intros e. apply post_blind_ret.
  - unfold list_shared_files.
    apply post_blind_bind; [apply post_blind_read_fs|]. intros es.
    apply post_blind_bind.
    + apply post_blind_for_each. intros f.
      apply post_blind_bind; [apply post_blind_read_fs|]. intros b. apply post_blind_ret.
    + intros ns. apply post_blind_ret.
  - apply post_blind_ret.
Qed.

Lemma post_blind_chat (request : ChatRequest) : post_blind (chat request).
Proof.
  unfold chat. apply post_blind_try; [|intros e; apply post_blind_raise].
  apply post_blind_bind; [apply post_blind_ollama|]. intros r.
  destruct (requested_tool_calls r) as [|tc tcs]; [apply post_blind_ret|].
  apply post_blind_bind; [apply post_blind_for_each, post_blind_run_tool_call|].
  intros results. apply post_blind_bind; [apply post_blind_ollama|]. intros r2.
  apply post_blind_bind; [apply post_blind_swallowed|]. intros _. apply post_blind_ret.
Qed.

Lemma post_blind_upload_file (file : UploadFile) :
  post_blind (upload_file file : M D pyval).
Proof.
  unfold upload_file. apply post_blind_try; [|intros e; apply post_blind_raise].
  apply post_blind_bind; [apply post_blind_write_fs|]. intros _.
  apply post_blind_bind; [apply post_blind_swallowed|]. intros _. apply post_blind_ret.
Qed.

End Chat.

Section ChatRun.
Context {py : PyRuntime} {D : Type} {docker_client : DockerClient D}.

Local Open Scope py_scope.

(** The tool calls do not touch the model backend, the webhook receiver,
    their logs or the file system. *)
Lemma tools_frame (tcs : list ToolCall) (w : World D) :
  exists d, (for_each tcs run_tool_call w).2 = set_docker d w.
Proof. apply docker_only_for_each, docker_only_run_tool_call. Qed.

(** [chat], step by step. *)
Lemma chat_run (request : ChatRequest) (w : World D) :
  chat request w =
  let w1 := log_ollama (first_call request) w in
  match w_ollama w (first_call request) with
  | Raise e => failure e w1
  | Return response =>
      match requested_tool_calls response with
      | [] => (Return (PDict [("response", PStr (msg_content response))]), w1)
      | tool_calls =>
          match for_each tool_calls run_tool_call w1 with
          | (Raise e, w2) => failure e w2
          | (Return results, w2) =>
              let c2 := second_call request response results in
              match w_ollama w c2 with
              | Raise e => failure e (log_ollama c2 w2)
              | Return final_response =>
                  (Return (PDict [("response", PStr (msg_content final_response));
                                  ("tool_results", PList results)]),
                   log_post (agent_action request results) (log_ollama c2 w2))
              end
          end
      end
  end.
Proof.
  unfold chat, try_except at 1, bind at 1, ollama_chat at 1.
  fold (first_call request). cbv zeta.
  destruct (w_ollama w (first_call request)) as [response|e]; [|reflexivity].
  destruct (requested_tool_calls response) as [|tc tcs] eqn:Etc; [reflexivity|].
  remember (tc :: tcs) as tool_calls eqn:Etcs.
  unfold bind at 1.
  destruct (tools_frame tool_calls (log_ollama (first_call request) w)) as [d Hd].
  destruct (for_each tool_calls run_tool_call (log_ollama (first_call request) w))
    as [[results|e] w2] eqn:Erun; simpl in Hd; subst w2.
  - unfold bind at 1, ollama_chat at 1. fold (second_call request response results).
    change (w_ollama (set_docker d (log_ollama (first_call request) w))) with (w_ollama w).
    destruct (w_ollama w (second_call request response results)) as [r2|e].
    + unfold bind at 1. fold (agent_action request results).
      rewrite post_swallowed. subst; reflexivity.
    + subst; reflexivity.
  - subst; reflexivity.
Qed.

End ChatRun.

Section ChatTheorems.
Context {py : PyRuntime} {D : Type} {docker_client : DockerClient D}.

Lemma serve_fst (h : M D pyval) (w : World D) : (serve h w).1 = json_response (h w).1.
Proof. unfold serve. destruct (h w); reflexivity. Qed.

Lemma serve_snd (h : M D pyval) (w : World D) : (serve h w).2 = (h w).2.
Proof. unfold serve. destruct (h w); reflexivity. Qed.

(** C2, as amended. Once the model has replied: a reply without tool calls
    (none, or an empty list) gives status 200 with the content of the reply
    as [response] and no [tool_results] key. A reply with tool calls, when
    each call runs without raising and the second model call returns, gives
    status 200 with [tool_results] holding one entry per call, in the order
    of the calls, each call run in the world left by the previous one and
    each entry carrying the requested name as [function]. When a call
    raises (a start or stop request without [container_name], a listing
    that fails) the request fails with status 500 and there are no
    [tool_results]. *)
Theorem chat_tool_results :
  forall (request : ChatRequest) (w : World D) (response : ModelMessage),
    w_ollama w (first_call request) = Return response ->
    let tool_calls := requested_tool_calls response in
    let w1 := log_ollama (first_call request) w in
    (tool_calls = [] ->
       exists v, (POST_chat request w).1 = ok_json v /\
         has_key "tool_results" v = false /\
         field "response" v = Some (PStr (msg_content response))) /\
    (forall results w2 final_response,
       tool_calls <> [] ->
       tool_run w1 tool_calls results w2 ->
       w_ollama w (second_call request response results) = Return final_response ->
       exists v, (POST_chat request w).1 = ok_json v /\
         field "tool_results" v = Some (PList results) /\
         length results = length tool_calls /\
         forall i tc, tool_calls !! i = Some tc ->
           exists entry, results !! i = Some entry /\
             field "function" entry = Some (PStr (tc_name tc))) /\
    (forall e w2,
       tool_calls <> [] ->
       for_each tool_calls run_tool_call w1 = (Raise e, w2) ->
       (POST_chat request w).1 = error_json 500 (exn_str e)).
Proof.
  intros request w response H tool_calls w1.
  unfold POST_chat. rewrite serve_fst, chat_run, H. cbv zeta.
  fold tool_calls w1. repeat split.
  - intros ->. eexists. repeat split.
  - intros results w2 r2 Hne Hrun H2.
    destruct tool_calls as [|tc tcs] eqn:E; [contradiction|].
    apply for_each_tool_run in Hrun as Hrun'. rewrite Hrun', H2.
    eexists. split; [reflexivity|]. split; [reflexivity|].
    destruct (tool_run_entries _ _ _ _ Hrun) as [Hlen Hent].
    split; [exact Hlen|]. intros i tc' Hi.
    destruct (Hent i tc' Hi) as (entry & res & Hl & ->).
    exists (PDict [("function", PStr (tc_name tc')); ("result", res)]).
    split; [exact Hl | reflexivity].
  - intros e w2 Hne Hrun.
    destruct tool_calls as [|tc tcs] eqn:E; [contradiction|].
    rewrite Hrun. reflexivity.
Qed.

(** C4. The outcome of the webhook call (a status of any kind, a timeout, a
    connection error) changes neither the response of a chat request nor the
    response of an upload: both are what they are when the receiver accepts
    the notification, and so is what the request did to the file system and
    to the container runtime. *)
Theorem webhook_outcome_is_discarded :
  forall (w : World D) (receiver : PostCall -> Result Z)
         (request : ChatRequest) (file : UploadFile),
    let accepting := set_post (fun _ => Return 200) w in
    let other := set_post receiver w in
    (POST_chat request other).1 = (POST_chat request accepting).1 /\
    w_fs (POST_chat request other).2 = w_fs (POST_chat request accepting).2 /\
    w_docker (POST_chat request other).2 = w_docker (POST_chat request accepting).2 /\
    (POST_files_upload file other).1 = (POST_files_upload file accepting).1 /\
    w_fs (POST_files_upload file other).2 = w_fs (POST_files_upload file accepting).2.
Proof.
  intros w receiver request file accepting other. subst accepting other.
  unfold POST_chat, POST_files_upload.
  rewrite !serve_fst, !serve_snd.
  rewrite !(post_blind_chat request w).
  rewrite !(post_blind_upload_file file w).
  repeat split.
Qed.

Lemma for_each_unknown (tcs : list ToolCall) (w : World D) :
  Forall (fun tc => tc_name tc ∉ tool_names) tcs ->
  for_each tcs run_tool_call w = (Return (List.map not_found_entry tcs), w).
Proof.
  induction 1 as [|tc tcs Htc Hall IH]; simpl; [reflexivity|].
  unfold bind. rewrite (run_tool_call_unknown tc w Htc), IH. reflexivity.
Qed.

(** C5, as amended. A tool call whose function name is not in the catalog
    raises nothing and changes nothing: its entry carries the requested name
    and the literal result ["Funzione non trovata"]. A chat request whose
    tool calls all have such names succeeds with one such entry per call as
    soon as the second model call returns. *)
Theorem unknown_function_not_found :
  forall (request : ChatRequest) (w : World D),
    (forall tc, tc_name tc ∉ tool_names ->
       run_tool_call tc w =
       (Return (PDict [("function", PStr (tc_name tc));
                       ("result", PStr "Funzione non trovata")]), w)) /\
    (forall response final_response,
       w_ollama w (first_call request) = Return response ->
       requested_tool_calls response <> [] ->
       Forall (fun tc => tc_name tc ∉ tool_names) (requested_tool_calls response) ->
       let results := List.map not_found_entry (requested_tool_calls response) in
       w_ollama w (second_call request response results) = Return final_response ->
       (POST_chat request w).1 =
       ok_json (PDict [("response", PStr (msg_content final_response));
                       ("tool_results", PList results)])).
Proof.
  intros request w. split.
  - intros tc H. apply run_tool_call_unknown, H.
  - intros response r2 H1 Hne Hall results H2.
    unfold POST_chat. rewrite serve_fst, chat_run, H1. cbv zeta.
    assert (Hrun : for_each (requested_tool_calls response) run_tool_call
                     (log_ollama (first_call request) w)
                   = (Return results, log_ollama (first_call request) w)).
    { apply for_each_unknown, Hall. }
    destruct (requested_tool_calls response) as [|tc tcs] eqn:E; [contradiction|].
    rewrite Hrun. fold results. rewrite H2. reflexivity.
Qed.

(** C8. When the reply of the model requests tool calls and they have run
    (giving [results]), [chat] calls the model a second time, and that call
    carries exactly three messages: the message of the user, the reply of
    the model as it was received, and one message of role ["tool"] whose
    content is [json.dumps] of the list of results; no catalog is passed.
    The content of the reply to that second call is the [response] of the
    request, next to the results themselves. *)
Theorem second_call_history :
  forall (request : ChatRequest) (w : World D) (response : ModelMessage)
         (results : list pyval) (w2 : World D),
    w_ollama w (first_call request) = Return response ->
    requested_tool_calls response <> [] ->
    tool_run (log_ollama (first_call request) w) (requested_tool_calls response) results w2 ->
    exists c2,
      w_ollama_log (chat request w).2 = (w_ollama_log w ++ [first_call request; c2])%list /\
      cc_messages c2 = [RoleContent "user" (message request);
                        FromModel response;
                        RoleContent "tool" (json_dumps (PList results))] /\
      cc_tools c2 = None /\
      forall final_response,
        w_ollama w c2 = Return final_response ->
        (POST_chat request w).1 =
        ok_json (PDict [("response", PStr (msg_content final_response));
                        ("tool_results", PList results)]).
Proof.
  intros request w response results w2 H1 Hne Hrun.
  exists (second_call request response results).
  unfold POST_chat. rewrite serve_fst, chat_run, H1. cbv zeta.
  apply for_each_tool_run in Hrun as Hrun'.
  destruct (tools_frame (requested_tool_calls response)
              (log_ollama (first_call request) w)) as [d Hd].
  rewrite Hrun' in Hd. simpl in Hd. subst w2.
  destruct (requested_tool_calls response) as [|tc tcs] eqn:E; [contradiction|].
  rewrite Hrun'. repeat split.
  - destruct (w_ollama w (second_call request response results));
      simpl; rewrite <- app_assoc; reflexivity.
  - intros r2 H2. rewrite H2. reflexivity.
Qed.

End ChatTheorems.

(** ** The shared file store *)

Section FileStore.
Context {py : PyRuntime} {D : Type}.

Local Open Scope py_scope.

Lemma upload_file_run (file : UploadFile) (w : World D) :
  upload_file file w =
  let file_path := truediv SHARED_DIR (filename file) in
  match open_wb_write file_path (upload_content file) (w_fs w) with
  | (Raise e, fs') => (Raise (HTTPException 500 (exn_str e)), set_fs fs' w)
  | (Return _, fs') =>
      (Return (PDict [("message", PStr ("File " +:+ filename file +:+ " caricato"));
                      ("path", PStr (path_str file_path))]),
       log_post (file_uploaded file) (set_fs fs' w))
  end.
Proof.
  unfold upload_file, try_except at 1, bind at 1, write_fs. cbv zeta.
  destruct (open_wb_write _ _ (w_fs w)) as [[u|e] fs']; [|reflexivity].
  unfold bind at 1. fold (file_uploaded file). rewrite post_swallowed. reflexivity.
Qed.

Lemma open_wb_write_at (fs : FS) (p : PurePath) (b : bytes) (loc : Loc) :
  resolve fs p = Return loc -> node_at fs loc <> Some Dir ->
  open_wb_write p b fs = (Return tt, <[loc := File b]> fs).
Proof.
  intros Hr Hn. unfold open_wb_write. rewrite Hr.
  destruct (node_at fs loc) as [[c|]|]; [reflexivity | contradiction | reflexivity].
Qed.

Lemma node_at_child (fs : FS) (n : string) :
  node_at fs (shared_loc ++ [n]) = fs !! (shared_loc ++ [n])%list.
Proof. reflexivity. Qed.

Lemma os_stat_child (fs : FS) (n : string) :
  shared_dir_ready fs -> plain_name n = true ->
  os_stat fs (child_path n) =
  match fs !! (shared_loc ++ [n])%list with
  | Some node => Return node
  | None => Raise (FileNotFoundError (path_str (child_path n)))
  end.
Proof.
  intros Hfs Hn. unfold os_stat, child_path. rewrite (resolve_child _ _ Hfs Hn).
  reflexivity.
Qed.

(** Writing an entry of the shared directory keeps the directory. *)
Lemma shared_dir_ready_insert (fs : FS) (n : string) (node : Node) :
  shared_dir_ready fs -> shared_dir_ready (<[(shared_loc ++ [n])%list := node]> fs).
Proof.
  rewrite !shared_dir_ready_iff. intros [H1 H2].
  unfold shared_loc in *. rewrite !lookup_insert_ne by discriminate. auto.
Qed.

(** The module-level [mkdir] makes the shared directory, when [/app] is
    there and [/app/shared] is not a file. *)
Lemma startup_shared_dir_ready (w : World D) :
  w_fs w !! ["app"] = Some Dir ->
  (forall b, w_fs w !! shared_loc <> Some (File b)) ->
  (startup w).1 = Return tt /\ shared_dir_ready (w_fs (startup w).2).
Proof.
  intros Happ Hfile. unfold startup, write_fs, mkdir_exist_ok.
  rewrite resolve_SHARED_DIR, Happ.
  change (node_at (w_fs w) shared_loc) with (w_fs w !! shared_loc).
  destruct (w_fs w !! shared_loc) as [[b|]|] eqn:E.
  - exfalso. exact (Hfile b eq_refl).
  - split; [reflexivity|]. apply shared_dir_ready_iff. auto.
  - split; [reflexivity|]. apply shared_dir_ready_iff. cbn [snd w_fs set_fs]. split.
    + unfold shared_loc. rewrite lookup_insert_ne by discriminate. exact Happ.
    + apply lookup_insert_eq.
Qed.

(** An upload under a plain name that is not the name of a directory. *)
Lemma upload_plain (file : UploadFile) (w : World D) :
  shared_dir_ready (w_fs w) ->
  plain_name (filename file) = true ->
  os_stat (w_fs w) (truediv SHARED_DIR (filename file)) <> Return Dir ->
  upload_file file w =
  (Return (PDict [("message", PStr ("File " +:+ filename file +:+ " caricato"));
                  ("path", PStr ("/app/shared/" +:+ filename file))]),
   log_post (file_uploaded file)
     (set_fs (<[(shared_loc ++ [filename file])%list := File (upload_content file)]> (w_fs w)) w)).
Proof.
  intros Hfs Hn Hd. rewrite upload_file_run. cbv zeta.
  rewrite (truediv_plain _ Hn) in *. fold (child_path (filename file)) in *.
  rewrite (open_wb_write_at _ _ _ (shared_loc ++ [filename file])).
  - reflexivity.
  - apply resolve_child; assumption.
  - rewrite node_at_child. intros E. apply Hd.
    rewrite (os_stat_child _ _ Hfs Hn), E. reflexivity.
Qed.

Lemma child_name_child (loc : Loc) (n : string) :
  child_name loc (loc ++ [n]) = Some n.
Proof.
  unfold child_name. rewrite drop_app_length, take_app_length.
  rewrite decide_True by reflexivity. reflexivity.
Qed.

Lemma child_name_inv (loc k : Loc) (n : string) :
  child_name loc k = Some n -> k = (loc ++ [n])%list.
Proof.
  unfold child_name. intros H.
  destruct (drop (length loc) k) as [|n' [|? ?]] eqn:E; try discriminate.
  destruct (decide (take (length loc) k = loc)) as [Ht|]; [|discriminate].
  injection H as ->. rewrite <- (take_drop (length loc) k), E, Ht. reflexivity.
Qed.

(** The entries of a directory: what the map holds under that location and
    under a name that an entry can have. *)
Lemma elem_of_children (fs : FS) (loc : Loc) (n : string) :
  n ∈ children fs loc <-> plain_name n = true /\ is_Some (fs !! (loc ++ [n])%list).
Proof.
  unfold children. rewrite list_elem_of_omap. split.
  - intros ([k node] & Hin & Hc). simpl in Hc.
    destruct (child_name loc k) as [n'|] eqn:Ek; [|discriminate].
    destruct (plain_name n') eqn:Ep; [|discriminate].
    injection Hc as ->. apply child_name_inv in Ek as ->.
    apply elem_of_map_to_list in Hin. eauto.
  - intros [Hp [node Hn]]. exists ((loc ++ [n])%list, node). split.
    + apply elem_of_map_to_list, Hn.
    + simpl. rewrite child_name_child, Hp. reflexivity.
Qed.

Lemma iterdir_shared (fs : FS) :
  shared_dir_ready fs ->
  iterdir fs SHARED_DIR = Return (List.map child_path (children fs shared_loc)).
Proof.
  intros H. unfold iterdir. rewrite (resolve_shared _ H).
  apply shared_dir_ready_inv in H as [_ H2].
  change (node_at fs shared_loc) with (fs !! shared_loc). rewrite H2. reflexivity.
Qed.

(** [iterdir] answers only for a shared directory that exists, and then
    with the paths of its entries. *)
Lemma iterdir_inv (fs : FS) (entries : list PurePath) :
  iterdir fs SHARED_DIR = Return entries ->
  shared_dir_ready fs /\ entries = List.map child_path (children fs shared_loc).
Proof.
  intros H. assert (Hready : shared_dir_ready fs).
  { apply shared_dir_ready_iff. unfold iterdir in H. rewrite resolve_SHARED_DIR in H.
    destruct (fs !! ["app"]) as [[b|]|]; try discriminate.
    change (node_at fs shared_loc) with (fs !! shared_loc) in H.
    destruct (fs !! shared_loc) as [[b|]|]; try discriminate. auto. }
  split; [exact Hready|]. rewrite (iterdir_shared _ Hready) in H.
  injection H as <-. reflexivity.
Qed.

(** The [stat] of an entry that [iterdir] has given succeeds. *)
Lemma os_stat_entry (fs : FS) (entries : list PurePath) (f : PurePath) :
  iterdir fs SHARED_DIR = Return entries -> f ∈ entries ->
  exists n node, f = child_path n /\ plain_name n = true /\ os_stat fs f = Return node.
Proof.
  intros Hi Hf. apply iterdir_inv in Hi as [Hready ->].
  apply list_elem_of_fmap in Hf as (n & -> & Hn).
  apply elem_of_children in Hn as [Hp [node Hnode]].
  exists n, node. split; [reflexivity|]. split; [exact Hp|].
  rewrite (os_stat_child _ _ Hready Hp), Hnode. reflexivity.
Qed.

Lemma for_each_pure_in {A B : Type} (xs : list A) (f : A -> M D B) (g : A -> B)
    (w : World D) :
  (forall x, x ∈ xs -> f x w = (Return (g x), w)) ->
  for_each xs f w = (Return (List.map g xs), w).
Proof.
  induction xs as [|x xs IH]; intros Hf; simpl; [reflexivity|].
  unfold bind. rewrite (Hf x) by left. rewrite IH by (intros y Hy; apply Hf; right; exact Hy).
  reflexivity.
Qed.

Lemma list_files_body (f : PurePath) (node : Node) (w : World D) :
  os_stat (w_fs w) f = Return node ->
  (regular <- read_fs (fun fs => is_file fs f) ;;
   if regular : bool then
     (size <- read_fs (fun fs => st_size fs f) ;;
      ret (Some (PDict [("name", PStr (path_name f)); ("size", PInt size)])))
   else ret None) w = (Return (listing_entry (w_fs w) f), w).
Proof.
  intros E. unfold bind, read_fs, is_file, st_size, listing_entry, ret. rewrite E.
  destruct node; cbv beta iota; rewrite ?E; reflexivity.
Qed.

Lemma omap_id_map {A B : Type} (g : A -> option B) (l : list A) :
  omap id (List.map g l) = omap g l.
Proof.
  induction l as [|a l IH]; [reflexivity|].
  change (omap id (List.map g (a :: l)))
    with (match g a with Some y => y :: omap id (List.map g l) | None => omap id (List.map g l) end).
  rewrite IH. reflexivity.
Qed.

Lemma list_files_run (w : World D) :
  list_files w =
  match iterdir (w_fs w) SHARED_DIR with
  | Return entries =>
      (Return (PDict [("files", PList (omap (listing_entry (w_fs w)) entries))]), w)
  | Raise e => (Raise e, w)
  end.
Proof.
  unfold list_files. unfold bind at 1. unfold read_fs at 1.
  destruct (iterdir (w_fs w) SHARED_DIR) as [entries|e] eqn:Ei; [|reflexivity].
  unfold bind at 1.
  rewrite (for_each_pure_in entries _ (listing_entry (w_fs w)) w).
  - unfold ret. rewrite omap_id_map. reflexivity.
  - intros f Hf. destruct (os_stat_entry _ _ _ Ei Hf) as (n & node & _ & _ & Hs).
    apply (list_files_body f node w Hs).
Qed.

End FileStore.

Section FileTheorems.
Context {py : PyRuntime} {D : Type}.

Local Open Scope py_scope.

(** The file system only raises subclasses of [OSError] and [ValueError]. *)
Lemma walk_raises (fs : FS) (path : string) (ps : list string) (cur : Loc) (e : exn) :
  walk fs path cur ps = Raise e -> exists cls msg, e = Exception cls msg.
Proof.
  revert cur. induction ps as [|p ps IH]; intros cur; simpl; [discriminate|].
  destruct (node_at fs cur) as [[b|]|].
  - intros H. injection H as <-. unfold NotADirectoryError, os_error. eauto.
  - destruct (name_too_long p); [|apply IH].
    intros H. injection H as <-. unfold FileNameTooLong, os_error. eauto.
  - intros H. injection H as <-. unfold FileNotFoundError, os_error. eauto.
Qed.

Lemma resolve_raises (fs : FS) (p : PurePath) (e : exn) :
  resolve fs p = Raise e -> exists cls msg, e = Exception cls msg.
Proof.
  unfold resolve. destruct (has_nul (path_str p)).
  - intros H. injection H as <-. unfold ValueError. eauto.
  - destruct (path_too_long (path_str p)); [|apply walk_raises].
    intros H. injection H as <-. unfold FileNameTooLong, os_error. eauto.
Qed.

Lemma os_stat_raises (fs : FS) (p : PurePath) (e : exn) :
  os_stat fs p = Raise e -> exists cls msg, e = Exception cls msg.
Proof.
  unfold os_stat. destruct (resolve fs p) as [loc|e'] eqn:Er.
  - destruct (node_at fs loc); [discriminate|].
    intros H. injection H as <-. unfold FileNotFoundError, os_error. eauto.
  - intros H. injection H as <-. eapply resolve_raises, Er.
Qed.

(** The [stat] of an entry of the shared directory under a plain name fails
    only with ENOENT or ENOTDIR. *)
Lemma os_stat_child_quiet (fs : FS) (n : string) (e : exn) :
  plain_name n = true -> os_stat fs (child_path n) = Raise e -> ignore_error e = true.
Proof.
  intros Hn. unfold os_stat, child_path. rewrite (resolve_child_cases _ _ Hn).
  destruct (fs !! ["app"]) as [[b|]|].
  - intros H. injection H as <-. reflexivity.
  - destruct (fs !! shared_loc) as [[b|]|].
    + intros H. injection H as <-. reflexivity.
    + destruct (node_at fs (shared_loc ++ [n])); [discriminate|].
      intros H. injection H as <-. reflexivity.
    + intros H. injection H as <-. reflexivity.
  - intros H. injection H as <-. reflexivity.
Qed.

Lemma download_file_run (fname : string) (w : World D) :
  download_file fname w =
  (match path_exists (w_fs w) (truediv SHARED_DIR fname) with
   | Return true => Return (truediv SHARED_DIR fname)
   | Return false => Raise (HTTPException 404 "File non trovato")
   | Raise e => Raise e
   end, w).
Proof.
  unfold download_file, bind, read_fs. cbv zeta.
  destruct (path_exists (w_fs w) (truediv SHARED_DIR fname)) as [[|]|e]; reflexivity.
Qed.

Lemma GET_files_filename_run (fname : string) (w : World D) :
  GET_files_filename fname w =
  (match path_exists (w_fs w) (truediv SHARED_DIR fname) with
   | Return true =>
       match os_stat (w_fs w) (truediv SHARED_DIR fname) with
       | Return (File b) => {| http_status := 200; http_body := FileBody b |}
       | _ => internal_server_error
       end
   | Return false => error_json 404 "File non trovato"
   | Raise e => file_response (w_fs w) (Raise e)
   end, w).
Proof.
  unfold GET_files_filename. rewrite download_file_run.
  destruct (path_exists (w_fs w) (truediv SHARED_DIR fname)) as [[|]|e]; reflexivity.
Qed.

(** The answer of GET /files/{filename} by the outcome of [stat]. *)
Lemma GET_files_filename_stat (fname : string) (w : World D) :
  (GET_files_filename fname w).1 =
  match os_stat (w_fs w) (truediv SHARED_DIR fname) with
  | Return (File b) => {| http_status := 200; http_body := FileBody b |}
  | Return Dir => internal_server_error
  | Raise e =>
      if is_value_error e || ignore_error e || negb pathlib_reraises
      then error_json 404 "File non trovato"
      else internal_server_error
  end.
Proof.
  rewrite GET_files_filename_run. unfold path_exists. cbn [fst].
  destruct (os_stat (w_fs w) (truediv SHARED_DIR fname)) as [[b|]|e] eqn:E;
    [reflexivity | reflexivity |].
  unfold stat_failure.
  destruct (is_value_error e || ignore_error e || negb pathlib_reraises); [reflexivity|].
  destruct (os_stat_raises _ _ _ E) as (cls & msg & ->). reflexivity.
Qed.

(** Every entry that GET /files lists is a regular file of the shared
    directory, under its name and with its size. *)
Lemma listed_files_inv (w : World D) (entry : pyval) :
  entry ∈ listed_files (GET_files w).1 ->
  exists n b, entry = file_entry n (Z.of_nat (length b)) /\
              os_stat (w_fs w) (child_path n) = Return (File b).
Proof.
  unfold GET_files. rewrite serve_fst, list_files_run.
  destruct (iterdir (w_fs w) SHARED_DIR) as [entries|e] eqn:Ei.
  - unfold listed_files. simpl. intros H.
    apply list_elem_of_omap in H as (f & Hf & Hl).
    destruct (os_stat_entry _ _ _ Ei Hf) as (n & node & -> & _ & _).
    unfold listing_entry in Hl.
    destruct (os_stat (w_fs w) (child_path n)) as [[b|]|] eqn:Es; try discriminate.
    injection Hl as <-. exists n, b. split; [reflexivity | exact Es].
  - destruct e; unfold listed_files; simpl; intros H; apply elem_of_nil in H; contradiction.
Qed.

Lemma listed_files_child (w : World D) (n : string) (b : bytes) :
  shared_dir_ready (w_fs w) -> plain_name n = true ->
  (w_fs w) !! (shared_loc ++ [n])%list = Some (File b) ->
  file_entry n (Z.of_nat (length b)) ∈ listed_files (GET_files w).1.
Proof.
  intros Hfs Hn Hl. unfold GET_files. rewrite serve_fst, list_files_run.
  rewrite (iterdir_shared _ Hfs). unfold listed_files. simpl.
  apply list_elem_of_omap. exists (child_path n). split.
  - apply list_elem_of_fmap. exists n. split; [reflexivity|].
    apply elem_of_children. rewrite Hl. eauto.
  - unfold listing_entry. rewrite (os_stat_child _ _ Hfs Hn), Hl. reflexivity.
Qed.

(** C10, as amended. GET /files/{filename} never answers 404 for a path
    that exists, and for a file name (at most 255 bytes, not empty, not
    ["."] or [".."], without ["/"] and NUL) it answers 404 exactly when
    [SHARED_DIR / filename] does not exist. For a path that does not exist
    the answer is 404 when [stat] fails with "no such file" or "not a
    directory" (or the name holds a NUL); when it fails otherwise, as it
    does for a name that is too long, [Path.exists()] raises the error
    again up to Python 3.13 and the answer is 500, and it is 404 from
    Python 3.14 on. When the name is that of an entry of the shared
    directory that is not a regular file (a subdirectory), the answer is
    not 404 (sending the response fails: 500), and GET /files lists no
    entry of that name. *)
Theorem download_404_iff_absent :
  forall (w : World D) (fname : string),
    (forall node, os_stat (w_fs w) (truediv SHARED_DIR fname) = Return node ->
       http_status (GET_files_filename fname w).1 <> 404) /\
    (forall e, os_stat (w_fs w) (truediv SHARED_DIR fname) = Raise e ->
       http_status (GET_files_filename fname w).1 =
       if is_value_error e || ignore_error e || negb pathlib_reraises then 404 else 500) /\
    (plain_name fname = true ->
       (http_status (GET_files_filename fname w).1 = 404 <->
        forall node, os_stat (w_fs w) (truediv SHARED_DIR fname) <> Return node)) /\
    (plain_name fname = true ->
     os_stat (w_fs w) (truediv SHARED_DIR fname) = Return Dir ->
       http_status (GET_files_filename fname w).1 = 500 /\
       forall entry, entry ∈ listed_files (GET_files w).1 ->
         field "name" entry <> Some (PStr fname)).
Proof.
  intros w fname. rewrite GET_files_filename_stat.
  split; [|split; [|split]].
  - intros node ->. destruct node; discriminate.
  - intros e ->.
    destruct (is_value_error e || ignore_error e || negb pathlib_reraises); reflexivity.
  - intros Hn. rewrite (truediv_plain _ Hn). fold (child_path fname). split.
    + intros H node Hs. rewrite Hs in H. destruct node; discriminate.
    + intros H.
      destruct (os_stat (w_fs w) (child_path fname)) as [node|e] eqn:E.
      * exfalso. exact (H node eq_refl).
      * rewrite (os_stat_child_quiet _ _ _ Hn E), orb_true_r. reflexivity.
  - intros Hn Hd. split.
    + rewrite Hd. reflexivity.
    + intros entry He Hname.
      apply listed_files_inv in He as (n & b & -> & Hs).
      simpl in Hname. injection Hname as ->.
      rewrite (truediv_plain _ Hn) in Hd. fold (child_path fname) in Hd.
      rewrite Hd in Hs. discriminate.
Qed.

(** C1, as amended. Once the shared directory exists, for every file name
    N (at most 255 bytes, not empty, not ["."] or [".."], without ["/"]
    and NUL) that is not the name of a subdirectory of the shared directory
    and every byte sequence B: POST /files/upload of B under N answers 200,
    GET /files/N then answers 200 with exactly B, and GET /files then lists
    the entry with name N and size the length of B. *)
Theorem upload_download_roundtrip :
  forall (w : World D) (file : UploadFile),
    shared_dir_ready (w_fs w) ->
    plain_name (filename file) = true ->
    os_stat (w_fs w) (truediv SHARED_DIR (filename file)) <> Return Dir ->
    let w1 := (POST_files_upload file w).2 in
    http_status (POST_files_upload file w).1 = 200 /\
    (GET_files_filename (filename file) w1).1 =
      {| http_status := 200; http_body := FileBody (upload_content file) |} /\
    file_entry (filename file) (Z.of_nat (length (upload_content file)))
      ∈ listed_files (GET_files w1).1.
Proof.
  intros w file Hfs Hn Hd w1. subst w1. unfold POST_files_upload.
  rewrite serve_fst, serve_snd, (upload_plain file w Hfs Hn Hd).
  cbn [fst snd json_response http_status].
  set (fs' := <[(shared_loc ++ [filename file])%list := File (upload_content file)]> (w_fs w)).
  set (w1 := log_post _ _).
  assert (Hfs1 : w_fs w1 = fs') by reflexivity.
  assert (Hready : shared_dir_ready (w_fs w1)).
  { rewrite Hfs1. apply shared_dir_ready_insert, Hfs. }
  assert (Hl : (w_fs w1) !! (shared_loc ++ [filename file])%list
               = Some (File (upload_content file))).
  { rewrite Hfs1. apply lookup_insert_eq. }
  split; [reflexivity|]. split.
  - rewrite GET_files_filename_run, (truediv_plain _ Hn).
    fold (child_path (filename file)).
    unfold path_exists. rewrite (os_stat_child _ _ Hready Hn), Hl. reflexivity.
  - apply listed_files_child; assumption.
Qed.

End FileTheorems.

Section UploadTheorems.
Context {py : PyRuntime} {D : Type}.

Lemma split_slash_dot (s : string) : split_slash ("./" +:+ s) = "." :: split_slash s.
Proof. reflexivity. Qed.

Lemma split_slash_dotdot (s : string) : split_slash ("../" +:+ s) = ".." :: split_slash s.
Proof. reflexivity. Qed.

Lemma Path_dotdot (n : string) :
  plain_name n = true -> Path ("../" +:+ n) = {| root := ""; parts := [".."; n] |}.
Proof.
  intros H. pose proof (kept_part_plain _ H) as Hk.
  apply plain_name_inv in H as (_ & _ & _ & Hs & _).
  unfold Path. rewrite split_slash_dotdot, (split_slash_plain _ Hs).
  simpl. rewrite Hk. reflexivity.
Qed.

(** [pathlib] drops a leading ["./"]. *)
Lemma Path_dot (s : string) : Path ("./" +:+ s) = {| root := ""; parts := parts (Path s) |}.
Proof. unfold Path. rewrite split_slash_dot. reflexivity. Qed.

Lemma truediv_dot (p : PurePath) (s : string) :
  splitroot s = "" -> truediv p ("./" +:+ s) = truediv p s.
Proof.
  intros Hr. unfold truediv. rewrite Path_dot. cbv zeta. simpl root. rewrite Hr. reflexivity.
Qed.

(** No component of a path is ["."]. *)
Lemma parts_no_dot (p : PurePath) (s : string) :
  "." ∉ parts p -> "." ∉ parts (truediv p s).
Proof.
  intros Hp. unfold truediv. cbv zeta.
  assert (Hq : "." ∉ parts (Path s)).
  { unfold Path. simpl. rewrite list_elem_of_In, filter_In. intros [_ H]. discriminate H. }
  destruct (String.eqb (root (Path s)) ""); [|exact Hq].
  simpl. rewrite elem_of_app. tauto.
Qed.

(** A [".."] component stays in the path. *)
Lemma parts_keep_dotdot (p : PurePath) (s : string) :
  ".." ∈ split_slash s -> ".." ∈ parts (truediv p s).
Proof.
  intros Hs. unfold truediv. cbv zeta.
  assert (Hq : ".." ∈ parts (Path s)).
  { unfold Path. simpl. rewrite list_elem_of_In, filter_In. split; [|reflexivity].
    apply list_elem_of_In, Hs. }
  destruct (String.eqb (root (Path s)) ""); [|exact Hq].
  simpl. rewrite elem_of_app. tauto.
Qed.

Lemma splitroot_absolute (r : string) : String.eqb (splitroot (String "/" r)) "" = false.
Proof.
  destruct r as [|c r]; [reflexivity|].
  destruct (Ascii.eqb_spec c "/") as [->|Hc].
  - destruct r as [|c' r]; [reflexivity|].
    destruct (Ascii.eqb_spec c' "/") as [->|Hc']; [reflexivity|].
    destruct c' as [[] [] [] [] [] [] [] []]; try reflexivity; contradiction.
  - destruct c as [[] [] [] [] [] [] [] []]; try reflexivity; contradiction.
Qed.

(** An absolute right operand replaces the left one. *)
Lemma truediv_absolute (p : PurePath) (r : string) :
  truediv p (String "/" r) = Path (String "/" r).
Proof.
  unfold truediv. cbv zeta. change (root (Path ?s)) with (splitroot s).
  rewrite splitroot_absolute. reflexivity.
Qed.

Lemma Path_absolute (n : string) :
  plain_name n = true -> Path (String "/" n) = {| root := "/"; parts := [n] |}.
Proof.
  intros H. pose proof (kept_part_plain _ H) as Hk.
  apply plain_name_inv in H as (Hne & _ & _ & Hs & _).
  unfold Path. f_equal.
  - destruct n as [|c r]; [contradiction|]. simpl in Hs.
    destruct (Ascii.eqb c "/") eqn:E; [discriminate|].
    destruct c as [[] [] [] [] [] [] [] []]; try reflexivity; discriminate E.
  - simpl. rewrite (split_slash_plain _ Hs). simpl. rewrite Hk. reflexivity.
Qed.

Lemma path_too_long_dotdot (n : string) :
  name_too_long n = false -> path_too_long ("/app/shared/../" +:+ n) = false.
Proof.
  unfold name_too_long, path_too_long, NAME_MAX, PATH_MAX. intros H.
  apply Z.ltb_ge in H. apply Z.leb_gt.
  change (String.length ("/app/shared/../" +:+ n)) with (15 + String.length n)%nat.
  lia.
Qed.

Lemma resolve_dotdot (fs : FS) (n : string) :
  shared_dir_ready fs -> plain_name n = true ->
  resolve fs (truediv SHARED_DIR ("../" +:+ n)) = Return ["app"; n].
Proof.
  intros H Hn. apply shared_dir_ready_inv in H as [H1 H2].
  unfold truediv. rewrite (Path_dotdot _ Hn). simpl root. cbv iota.
  pose proof (plain_name_short _ Hn) as Hl.
  apply plain_name_inv in Hn as (_ & _ & Hdd & _ & Hnul).
  unfold resolve.
  change (path_str _) with ("/app/shared/../" +:+ n).
  change (has_nul ("/app/shared/../" +:+ n)) with (has_nul n).
  rewrite Hnul, (path_too_long_dotdot _ Hl).
  change (parts _) with ("app" :: "shared" :: ".." :: [n]).
  rewrite walk_shared, H1. cbn [walk].
  change (node_at fs shared_loc) with (fs !! shared_loc). rewrite H2.
  change (name_too_long "..") with false. cbv iota.
  change (String.eqb ".." "..") with true. cbv iota.
  change (removelast shared_loc) with ["app"].
  change (node_at fs ["app"]) with (fs !! ["app"]). rewrite H1, Hl.
  destruct (String.eqb n "..") eqn:E; [apply String.eqb_eq in E; contradiction|].
  reflexivity.
Qed.

(** C6, as amended. Once the shared directory exists, an upload of content
    B under a file name N (at most 255 bytes, not empty, not ["."] or
    [".."], without ["/"] and NUL) that is not the name of a subdirectory
    writes exactly B to the entry N of the shared directory, whatever was
    there before, and changes no other file. The response holds a message
    and the stored path, ["/app/shared/" + N], and nothing else; the number
    of bytes written goes to the webhook notification, next to the file
    name and the path. *)
Theorem upload_writes_file :
  forall (w : World D) (file : UploadFile),
    shared_dir_ready (w_fs w) ->
    plain_name (filename file) = true ->
    os_stat (w_fs w) (truediv SHARED_DIR (filename file)) <> Return Dir ->
    let N := filename file in
    let B := upload_content file in
    let w1 := (POST_files_upload file w).2 in
    (POST_files_upload file w).1 =
      ok_json (PDict [("message", PStr ("File " +:+ N +:+ " caricato"));
                      ("path", PStr ("/app/shared/" +:+ N))]) /\
    w_fs w1 = <[(shared_loc ++ [N])%list := File B]> (w_fs w) /\
    os_stat (w_fs w1) (truediv SHARED_DIR N) = Return (File B) /\
    (forall loc, loc <> (shared_loc ++ [N])%list -> w_fs w1 !! loc = w_fs w !! loc) /\
    w_post_log w1 =
      (w_post_log w ++
       [{| pc_url := N8N_WEBHOOK_URL +:+ "/webhook/file-uploaded";
           pc_json := PDict [("filename", PStr N);
                             ("size", PInt (Z.of_nat (length B)));
                             ("path", PStr ("/app/shared/" +:+ N))];
           pc_timeout := 5 |}])%list.
Proof.
  intros w file Hfs Hn Hd N B w1. subst w1 N B. unfold POST_files_upload.
  rewrite serve_fst, serve_snd, (upload_plain file w Hfs Hn Hd).
  cbn [fst snd json_response].
  split; [reflexivity|]. split; [reflexivity|]. split; [|split].
  - cbn [w_fs log_post set_fs]. rewrite (truediv_plain _ Hn).
    fold (child_path (filename file)).
    rewrite os_stat_child by (try apply shared_dir_ready_insert; assumption).
    rewrite lookup_insert_eq. reflexivity.
  - intros loc Hloc. cbn [w_fs log_post set_fs]. apply lookup_insert_ne. congruence.
  - cbn [w_post_log log_post set_fs]. unfold file_uploaded. cbv zeta.
    rewrite (truediv_plain _ Hn). reflexivity.
Qed.

(** C7, as amended. An upload writes the file at the location that
    [SHARED_DIR / filename] resolves to, and nothing checks or rewrites the
    name on the way. For a file name (at most 255 bytes, not empty, not
    ["."] or [".."], without ["/"] and NUL) this is the entry of exactly
    that name in the shared directory. Otherwise [pathlib] and the
    operating system decide: a [".."] component stays in the path and is
    followed, so that ["../" + n], for a file name [n], is written as the
    entry [n] of [/app], next to the shared directory and not in it; no
    ["."] component stays in the path, and a leading ["./"] before a
    relative name is dropped, so that the file is stored where the rest of
    the name leads; a name that starts with ["/"] replaces the shared
    directory altogether: the path is that of the name alone. *)
Theorem upload_location :
  forall (w : World D) (file : UploadFile),
    (forall loc,
       resolve (w_fs w) (truediv SHARED_DIR (filename file)) = Return loc ->
       node_at (w_fs w) loc <> Some Dir ->
       http_status (POST_files_upload file w).1 = 200 /\
       w_fs (POST_files_upload file w).2 = <[loc := File (upload_content file)]> (w_fs w)) /\
    (shared_dir_ready (w_fs w) -> plain_name (filename file) = true ->
       resolve (w_fs w) (truediv SHARED_DIR (filename file))
         = Return (shared_loc ++ [filename file])%list /\
       path_name (truediv SHARED_DIR (filename file)) = filename file) /\
    ((".." ∈ split_slash (filename file) ->
        ".." ∈ parts (truediv SHARED_DIR (filename file))) /\
     forall n, shared_dir_ready (w_fs w) -> plain_name n = true ->
       filename file = "../" +:+ n ->
       resolve (w_fs w) (truediv SHARED_DIR (filename file)) = Return ["app"; n]) /\
    (("." ∉ parts (truediv SHARED_DIR (filename file))) /\
     forall s, splitroot s = "" -> filename file = "./" +:+ s ->
       truediv SHARED_DIR (filename file) = truediv SHARED_DIR s) /\
    (forall r, filename file = String "/" r ->
       truediv SHARED_DIR (filename file) = Path (filename file) /\
       root (truediv SHARED_DIR (filename file)) <> "" /\
       (plain_name r = true ->
        truediv SHARED_DIR (filename file) = {| root := "/"; parts := [r] |})).
Proof.
  intros w file. split; [|split; [|split; [|split]]].
  - intros loc Hr Hd. unfold POST_files_upload.
    rewrite serve_fst, serve_snd, upload_file_run. cbv zeta.
    rewrite (open_wb_write_at _ _ _ loc) by assumption. split; reflexivity.
  - intros Hfs Hn. rewrite truediv_plain by assumption. split; [|reflexivity].
    apply resolve_child; assumption.
  - split; [apply parts_keep_dotdot|].
    intros n Hfs Hn ->. apply resolve_dotdot; assumption.
  - split.
    + apply parts_no_dot. rewrite list_elem_of_In. simpl.
      intros [E|[E|[]]]; discriminate E.
    + intros s Hs ->. apply truediv_dot, Hs.
  - intros r ->. rewrite truediv_absolute. split; [reflexivity|]. split.
    + change (root (Path ?s)) with (splitroot s). intros E.
      pose proof (splitroot_absolute r) as H. rewrite E in H. discriminate H.
    + intros Hn. apply Path_absolute, Hn.
Qed.

End UploadTheorems.

(** ** The theorems at work on the in-memory runtime *)

Section Scenarios.

#[local] Existing Instance Fake.python.
#[local] Existing Instance Fake.docker.

(** C1: uploading [report.csv] (12 bytes), then listing and downloading. *)
Lemma upload_download_roundtrip_witness :
  let w : FakeWorld := Fake.world (Fake.scripted (Fake.says "") (Fake.says "")) Fake.unreachable in
  let w1 := (POST_files_upload Fake.report_csv w).2 in
  http_status (POST_files_upload Fake.report_csv w).1 = 200 /\
  (GET_files_filename "report.csv" w1).1 =
    {| http_status := 200; http_body := FileBody (upload_content Fake.report_csv) |} /\
  file_entry "report.csv" 12 ∈ listed_files (GET_files w1).1.
Proof.
  cbv zeta.
  apply (upload_download_roundtrip
           (Fake.world (Fake.scripted (Fake.says "") (Fake.says "")) Fake.unreachable)
           Fake.report_csv).
  - vm_compute. reflexivity.
  - vm_compute. reflexivity.
  - vm_compute. discriminate.
Defined.

(** C1, the claim as stated: a name with a directory component is not
    stored (there is no such subdirectory), so that the upload fails, the
    download answers 404 and nothing is listed. *)
Lemma upload_with_directory_component_fails :
  let file := {| filename := "sub/a.txt"; upload_content := [Byte.x01; Byte.x02] |} in
  let w : FakeWorld := Fake.world (Fake.scripted (Fake.says "") (Fake.says "")) Fake.accepted in
  let w1 := (POST_files_upload file w).2 in
  (POST_files_upload file w).1 =
    error_json 500 "[Errno 2] No such file or directory: '/app/shared/sub/a.txt'" /\
  (GET_files_filename "sub/a.txt" w1).1 = error_json 404 "File non trovato" /\
  listed_files (GET_files w1).1 = [].
Proof. vm_compute. repeat split. Qed.

(** C2: the model asks to stop a container that does not exist and then to
    list the containers. *)
Lemma chat_tool_results_witness :
  let request := {| message := "stop api, then list the containers" |} in
  let reply := Fake.requests [Fake.call "stop_container" [("container_name", PStr "api")];
                              Fake.call_without_arguments "list_containers"] in
  let w : FakeWorld := Fake.world (Fake.scripted (Return reply) (Fake.says "done")) Fake.unreachable in
  exists v, (POST_chat request w).1 = ok_json v /\
    field "tool_results" v =
      Some (PList [PDict [("function", PStr "stop_container");
                          ("result", PStr "Errore: No such container: api")];
                   PDict [("function", PStr "list_containers");
                          ("result", PList [container_summary Fake.web "nginx:latest";
                                            container_summary Fake.db "unknown"])]]).
Proof.
  cbv zeta.
  pose (request := {| message := "stop api, then list the containers" |}).
  pose (reply := Fake.requests
                   [Fake.call "stop_container" [("container_name", PStr "api")];
                    Fake.call_without_arguments "list_containers"]).
  pose (w := Fake.world (Fake.scripted (Return reply) (Fake.says "done")) Fake.unreachable).
  destruct (chat_tool_results request w reply eq_refl) as (_ & H & _).
  destruct (H [PDict [("function", PStr "stop_container");
                      ("result", PStr "Errore: No such container: api")];
               PDict [("function", PStr "list_containers");
                      ("result", PList [container_summary Fake.web "nginx:latest";
                                        container_summary Fake.db "unknown"])]]
              (log_ollama (first_call request) w)
              {| msg_content := "done"; msg_tool_calls := None |})
    as (v & Hv & Hres & _).
  - discriminate.
  - econstructor; [vm_compute; reflexivity|].
    econstructor; [vm_compute; reflexivity|]. constructor.
  - reflexivity.
  - exists v. split; assumption.
Defined.

(** C2, the claim as stated: the reply requests exactly one function of
    the catalog, with an empty dict of arguments; the request fails and the
    response has no [tool_results]. *)
Lemma chat_single_known_call_fails :
  let request := {| message := "start it" |} in
  let reply := Fake.requests [Fake.call "start_container" []] in
  let w : FakeWorld := Fake.world (Fake.scripted (Return reply) (Fake.says "done")) Fake.accepted in
  w_ollama w (first_call request) = Return reply /\
  List.map tc_name (requested_tool_calls reply) = ["start_container"] /\
  List.existsb (String.eqb "start_container") tool_names = true /\
  (POST_chat request w).1 = error_json 500 "'container_name'" /\
  match http_body (POST_chat request w).1 with
  | JSONBody v => has_key "tool_results" v
  | _ => false
  end = false.
Proof. vm_compute. repeat split. Qed.

(** C3: starting a container that the runtime does not know, and stopping
    one that it knows. *)
Lemma start_stop_return_a_string_witness :
  let w : FakeWorld := Fake.world (Fake.scripted (Fake.says "") (Fake.says "")) Fake.accepted in
  start_container (PStr "api") w = (Return (PStr "Errore: No such container: api"), w) /\
  (stop_container (PStr "web") w).1 = Return (PStr "Container web fermato").
Proof.
  cbv zeta.
  destruct (start_stop_return_a_string (PStr "api")
              (Fake.world (Fake.scripted (Fake.says "") (Fake.says "")) Fake.accepted))
    as (Hstart & _).
  destruct (start_stop_return_a_string (PStr "web")
              (Fake.world (Fake.scripted (Fake.says "") (Fake.says "")) Fake.accepted))
    as (_ & Hstop & _).
  split.
  - refine (eq_trans Hstart _). vm_compute. reflexivity.
  - refine (eq_trans (f_equal fst Hstop) _). vm_compute. reflexivity.
Defined.

(** C5: a reply that asks for a function that does not exist. *)
Lemma unknown_function_not_found_witness :
  let request := {| message := "restart web" |} in
  let reply := Fake.requests [Fake.call "restart_container" [("container_name", PStr "web")]] in
  let w : FakeWorld := Fake.world (Fake.scripted (Return reply) (Fake.says "done")) Fake.unreachable in
  (POST_chat request w).1 =
    ok_json (PDict [("response", PStr "done");
                    ("tool_results",
                      PList [PDict [("function", PStr "restart_container");
                                    ("result", PStr "Funzione non trovata")]])]).
Proof.
  cbv zeta.
  pose (request := {| message := "restart web" |}).
  pose (reply := Fake.requests
                   [Fake.call "restart_container" [("container_name", PStr "web")]]).
  pose (w := Fake.world (Fake.scripted (Return reply) (Fake.says "done")) Fake.unreachable).
  destruct (unknown_function_not_found request w) as [_ H].
  apply (H reply {| msg_content := "done"; msg_tool_calls := None |}).
  - reflexivity.
  - discriminate.
  - repeat constructor. rewrite list_elem_of_In. vm_compute.
    intros [E|[E|[E|[E|[]]]]]; discriminate E.
  - reflexivity.
Defined.

(** C5, the claim as stated: the literal is not ["function not found"]. *)
Lemma unknown_function_literal :
  let w : FakeWorld := Fake.world (Fake.scripted (Fake.says "") (Fake.says "")) Fake.accepted in
  (run_tool_call (Fake.call_without_arguments "restart_container") w).1 =
    Return (PDict [("function", PStr "restart_container");
                   ("result", PStr "Funzione non trovata")]) /\
  "Funzione non trovata" <> "function not found".
Proof. split; [vm_compute; reflexivity | discriminate]. Qed.

(** C6: [report.csv] replaces an older file of the same name. *)
Lemma upload_writes_file_witness :
  let old : FS := <[ ["app"; "shared"; "report.csv"] := File [Byte.x6f; Byte.x6c; Byte.x64] ]> Fake.disk in
  let w : FakeWorld :=
    set_fs old (Fake.world (Fake.scripted (Fake.says "") (Fake.says "")) Fake.unreachable) in
  let w1 := (POST_files_upload Fake.report_csv w).2 in
  (POST_files_upload Fake.report_csv w).1 =
    ok_json (PDict [("message", PStr "File report.csv caricato");
                    ("path", PStr "/app/shared/report.csv")]) /\
  os_stat (w_fs w1) (truediv SHARED_DIR "report.csv")
    = Return (File (upload_content Fake.report_csv)) /\
  w_post_log w1 =
    [{| pc_url := "http://host.docker.internal:5678/webhook/file-uploaded";
        pc_json := PDict [("filename", PStr "report.csv");
                          ("size", PInt 12);
                          ("path", PStr "/app/shared/report.csv")];
        pc_timeout := 5 |}].
Proof.
  cbv zeta.
  pose (old := <[ ["app"; "shared"; "report.csv"] := File [Byte.x6f; Byte.x6c; Byte.x64] ]>
                 Fake.disk).
  pose (w := set_fs old
               (Fake.world (Fake.scripted (Fake.says "") (Fake.says "")) Fake.unreachable)).
  destruct (upload_writes_file w Fake.report_csv) as (Hr & _ & Hstat & _ & Hlog).
  - vm_compute. reflexivity.
  - vm_compute. reflexivity.
  - vm_compute. discriminate.
  - split; [exact Hr|]. split; [exact Hstat|]. exact Hlog.
Defined.

(** C6, the claim as stated: the response to an upload of three bytes has
    the two keys [message] and [path], both strings; the byte count is not
    in it. *)
Lemma upload_response_has_no_size :
  let file := {| filename := "a.txt"; upload_content := [Byte.x01; Byte.x02; Byte.x03] |} in
  let w : FakeWorld := Fake.world (Fake.scripted (Fake.says "") (Fake.says "")) Fake.accepted in
  (POST_files_upload file w).1 =
    ok_json (PDict [("message", PStr "File a.txt caricato");
                    ("path", PStr "/app/shared/a.txt")]) /\
  match http_body (POST_files_upload file w).1 with
  | JSONBody v => field "size" v
  | _ => None
  end = None.
Proof. vm_compute. repeat split. Qed.

(** C7: a name that starts with ["../"] is written next to the shared
    directory. *)
Lemma upload_location_witness :
  let file := {| filename := "../a.txt"; upload_content := [Byte.x01; Byte.x02] |} in
  let w : FakeWorld := Fake.world (Fake.scripted (Fake.says "") (Fake.says "")) Fake.accepted in
  http_status (POST_files_upload file w).1 = 200 /\
  w_fs (POST_files_upload file w).2 = <[ ["app"; "a.txt"] := File [Byte.x01; Byte.x02] ]> (w_fs w).
Proof.
  cbv zeta.
  pose (file := {| filename := "../a.txt"; upload_content := [Byte.x01; Byte.x02] |}).
  pose (w := Fake.world (Fake.scripted (Fake.says "") (Fake.says "")) Fake.accepted).
  destruct (upload_location w file) as (Hwrite & _ & [_ Hdotdot] & _).
  apply (Hwrite ["app"; "a.txt"]).
  - apply (Hdotdot "a.txt"); [vm_compute; reflexivity | reflexivity | reflexivity].
  - vm_compute. discriminate.
Defined.

(** C7, the claim as stated: uploaded as ["./a.txt"], the file is stored in
    the shared directory under the name ["a.txt"]; uploaded as
    ["../a.txt"], it is stored outside the shared directory, which stays
    empty. *)
Lemma upload_name_is_not_kept :
  let dot := {| filename := "./a.txt"; upload_content := [Byte.x01; Byte.x02] |} in
  let dotdot := {| filename := "../a.txt"; upload_content := [Byte.x01; Byte.x02] |} in
  let w : FakeWorld := Fake.world (Fake.scripted (Fake.says "") (Fake.says "")) Fake.accepted in
  http_status (POST_files_upload dot w).1 = 200 /\
  listed_files (GET_files (POST_files_upload dot w).2).1 = [file_entry "a.txt" 2] /\
  http_status (POST_files_upload dotdot w).1 = 200 /\
  listed_files (GET_files (POST_files_upload dotdot w).2).1 = [] /\
  w_fs (POST_files_upload dotdot w).2 !! ["app"; "a.txt"] = Some (File [Byte.x01; Byte.x02]).
Proof. vm_compute. repeat split. Qed.

(** C8: the history of the second call for one request to list the
    containers. *)
Lemma second_call_history_witness :
  let request := {| message := "what is running?" |} in
  let reply := Fake.requests [Fake.call_without_arguments "list_containers"] in
  let w : FakeWorld := Fake.world (Fake.scripted (Return reply) (Fake.says "web is")) Fake.accepted in
  let results := [PDict [("function", PStr "list_containers");
                         ("result", PList [container_summary Fake.web "nginx:latest";
                                           container_summary Fake.db "unknown"])]] in
  exists c2,
    w_ollama_log (chat request w).2 = [first_call request; c2] /\
    cc_messages c2 = [RoleContent "user" "what is running?";
                      FromModel reply;
                      RoleContent "tool" (json_dumps (PList results))] /\
    (POST_chat request w).1 =
      ok_json (PDict [("response", PStr "web is"); ("tool_results", PList results)]).
Proof.
  cbv zeta.
  pose (request := {| message := "what is running?" |}).
  pose (reply := Fake.requests [Fake.call_without_arguments "list_containers"]).
  pose (w := Fake.world (Fake.scripted (Return reply) (Fake.says "web is")) Fake.accepted).
  pose (results := [PDict [("function", PStr "list_containers");
                           ("result", PList [container_summary Fake.web "nginx:latest";
                                             container_summary Fake.db "unknown"])]]).
  destruct (second_call_history request w reply results
              (log_ollama (first_call request) w) eq_refl)
    as (c2 & Hlog & Hmsgs & Htools & Hresp).
  - discriminate.
  - econstructor; [vm_compute; reflexivity | constructor].
  - exists c2. split; [exact Hlog|]. split; [exact Hmsgs|].
    apply (Hresp {| msg_content := "web is"; msg_tool_calls := None |}).
    destruct c2 as [m ms ts]. simpl in Htools. subst ts. reflexivity.
Defined.



(** C10: the subdirectory [archive] of the shared directory, a name under
    which there is nothing, and a name of 256 bytes. *)
Lemma download_404_iff_absent_witness :
  let w : FakeWorld :=
    set_fs Fake.disk_with_archive
      (Fake.world (Fake.scripted (Fake.says "") (Fake.says "")) Fake.accepted) in
  http_status (GET_files_filename "archive" w).1 = 500 /\
  (forall entry, entry ∈ listed_files (GET_files w).1 ->
     field "name" entry <> Some (PStr "archive")) /\
  http_status (GET_files_filename "missing.csv" w).1 = 404 /\
  http_status (GET_files_filename Fake.long_name w).1 = 500.
Proof.
  cbv zeta.
  pose (w := set_fs Fake.disk_with_archive
               (Fake.world (Fake.scripted (Fake.says "") (Fake.says "")) Fake.accepted)).
  destruct (download_404_iff_absent w "archive") as (_ & _ & _ & H).
  destruct (H eq_refl) as [H500 Hlist]; [vm_compute; reflexivity|].
  split; [exact H500|]. split; [exact Hlist|]. split.
  - destruct (download_404_iff_absent w "missing.csv") as (_ & _ & Hiff & _).
    apply (Hiff eq_refl). intros node. vm_compute. discriminate.
  - destruct (download_404_iff_absent w Fake.long_name) as (_ & Hraise & _).
    apply (Hraise (FileNameTooLong ("/app/shared/" +:+ Fake.long_name))).
    vm_compute. reflexivity.
Defined.

(** C10, the claim as stated: nothing exists under a name of 256 bytes,
    [stat] fails with ENAMETOOLONG, and on a Python up to 3.13 the answer
    is 500, not 404. *)
Lemma download_long_name_is_not_404 :
  let w : FakeWorld := Fake.world (Fake.scripted (Fake.says "") (Fake.says "")) Fake.accepted in
  os_stat (w_fs w) (truediv SHARED_DIR Fake.long_name)
    = Raise (FileNameTooLong ("/app/shared/" +:+ Fake.long_name)) /\
  (GET_files_filename Fake.long_name w).1 = internal_server_error /\
  http_status (GET_files_filename Fake.long_name w).1 = 500.
Proof. vm_compute. repeat split. Qed.

End Scenarios.

(** * Further properties of the handlers *)

(** ** The file endpoints *)

Section FileEndpoints.
Context {py : PyRuntime} {D : Type}.

Lemma set_fs_id (w : World D) : set_fs (w_fs w) w = w.
Proof. destruct w; reflexivity. Qed.

Lemma open_wb_write_raises (fs fs' : FS) (p : PurePath) (b : bytes) (e : exn) :
  open_wb_write p b fs = (Raise e, fs') ->
  fs' = fs /\ exists cls msg, e = Exception cls msg.
Proof.
  unfold open_wb_write. destruct (resolve fs p) as [loc|e'] eqn:Er.
  - destruct (node_at fs loc) as [[c|]|]; intros H; try discriminate.
    injection H as <- <-. split; [reflexivity|]. unfold IsADirectoryError, os_error. eauto.
  - intros H. injection H as <- <-. split; [reflexivity|]. eapply resolve_raises, Er.
Qed.

Lemma iterdir_not_ready (fs : FS) :
  os_stat fs SHARED_DIR <> Return Dir ->
  exists cls msg, iterdir fs SHARED_DIR = Raise (Exception cls msg).
Proof.
  unfold os_stat, iterdir. intros H.
  destruct (resolve fs SHARED_DIR) as [loc|e] eqn:Er.
  - destruct (node_at fs loc) as [[c|]|].
    + unfold NotADirectoryError, os_error. eauto.
    + contradiction.
    + unfold FileNotFoundError, os_error. eauto.
  - destruct (resolve_raises _ _ _ Er) as (cls & msg & ->). eauto.
Qed.

(** The location of an entry of the shared directory, when it resolves. *)
Lemma resolve_child_inv (fs : FS) (n : string) (loc : Loc) :
  plain_name n = true -> resolve fs (child_path n) = Return loc ->
  loc = (shared_loc ++ [n])%list.
Proof.
  intros Hn. unfold child_path. rewrite (resolve_child_cases _ _ Hn).
  destruct (fs !! ["app"]) as [[b|]|]; try discriminate.
  destruct (fs !! shared_loc) as [[b|]|]; try discriminate.
  intros H. injection H as <-. reflexivity.
Qed.

(** X1. A file name (at most 255 bytes, not empty, not ["."] or [".."],
    without ["/"] and NUL) under which the shared directory holds nothing
    is answered with 404 and the detail ["File non trovato"], whether or
    not the shared directory itself exists; the request changes nothing. *)
Theorem download_absent_is_404 :
  forall (w : World D) (n : string),
    plain_name n = true ->
    w_fs w !! (shared_loc ++ [n])%list = None ->
    GET_files_filename n w = (error_json 404 "File non trovato", w).
Proof.
  intros w n Hn Habs. rewrite GET_files_filename_run, (truediv_plain _ Hn).
  fold (child_path n). unfold path_exists.
  destruct (os_stat (w_fs w) (child_path n)) as [node|e] eqn:Es.
  - exfalso. unfold os_stat in Es.
    destruct (resolve (w_fs w) (child_path n)) as [loc|e] eqn:Er; [|discriminate].
    rewrite (resolve_child_inv _ _ _ Hn Er), node_at_child, Habs in Es. discriminate.
  - unfold stat_failure. rewrite (os_stat_child_quiet _ _ _ Hn Es), orb_true_r. reflexivity.
Qed.

(** X2. Once the shared directory exists, GET /files lists the entry of
    name [n] and size [size], for a plain name [n], exactly when the shared
    directory holds a regular file [n] of [size] bytes: subdirectories are
    left out and nothing else is added. The request changes nothing. *)
Theorem list_files_exact :
  forall (w : World D) (n : string) (size : Z),
    shared_dir_ready (w_fs w) ->
    plain_name n = true ->
    (GET_files w).2 = w /\
    http_status (GET_files w).1 = 200 /\
    (file_entry n size ∈ listed_files (GET_files w).1 <->
     exists b, w_fs w !! (shared_loc ++ [n])%list = Some (File b) /\
               size = Z.of_nat (length b)).
Proof.
  intros w n size Hfs Hn. split; [|split].
  - unfold GET_files. rewrite serve_snd, list_files_run, (iterdir_shared _ Hfs). reflexivity.
  - unfold GET_files. rewrite serve_fst, list_files_run, (iterdir_shared _ Hfs). reflexivity.
  - split.
    + intros H. apply listed_files_inv in H as (n' & b & Heq & Hs).
      injection Heq as -> ->. exists b. split; [|reflexivity].
      rewrite (os_stat_child _ _ Hfs Hn) in Hs.
      destruct (w_fs w !! (shared_loc ++ [n'])%list) as [node|]; [|discriminate].
      injection Hs as ->. reflexivity.
    + intros (b & Hl & ->). apply listed_files_child; assumption.
Qed.

(** X3. [list_files] has no handler of its own for errors: when the shared
    directory is missing, or is not a directory, GET /files answers with
    the bare 500 of the framework and changes nothing. *)
Theorem list_files_without_shared_dir :
  forall (w : World D),
    os_stat (w_fs w) SHARED_DIR <> Return Dir ->
    GET_files w = (internal_server_error, w).
Proof.
  intros w H. unfold GET_files, serve. rewrite list_files_run.
  destruct (iterdir_not_ready _ H) as (cls & msg & ->). reflexivity.
Qed.

(** X4. Every entry that GET /files lists under a plain name can be
    downloaded: GET /files/n answers 200 with a body whose length is the
    listed size. *)
Theorem listed_file_downloads :
  forall (w : World D) (n : string) (size : Z),
    plain_name n = true ->
    file_entry n size ∈ listed_files (GET_files w).1 ->
    exists b, size = Z.of_nat (length b) /\
      GET_files_filename n w = ({| http_status := 200; http_body := FileBody b |}, w).
Proof.
  intros w n size Hn H. apply listed_files_inv in H as (n' & b & Heq & Hs).
  injection Heq as -> ->. exists b. split; [reflexivity|].
  rewrite GET_files_filename_run, (truediv_plain _ Hn). fold (child_path n').
  unfold path_exists. rewrite Hs. reflexivity.
Qed.

End FileEndpoints.

(** ** Uploads *)

Section Uploads.
Context {py : PyRuntime} {D : Type}.

Local Open Scope py_scope.

Lemma list_shared_files_run (w : World D) :
  list_shared_files w =
  match iterdir (w_fs w) SHARED_DIR with
  | Return entries =>
      (Return (PList (omap (fun f => match os_stat (w_fs w) f with
                                     | Return (File _) => Some (PStr (path_name f))
                                     | _ => None
                                     end) entries)), w)
  | Raise e => (Raise e, w)
  end.
Proof.
  unfold list_shared_files. unfold bind at 1. unfold read_fs at 1.
  destruct (iterdir (w_fs w) SHARED_DIR) as [entries|e] eqn:Ei; [|reflexivity].
  unfold bind at 1.
  rewrite (for_each_pure_in entries _
             (fun f => match os_stat (w_fs w) f with
                       | Return (File _) => Some (PStr (path_name f))
                       | _ => None
                       end) w).
  - unfold ret. rewrite omap_id_map. reflexivity.
  - intros f Hf. destruct (os_stat_entry _ _ _ Ei Hf) as (n & node & _ & _ & Hs).
    unfold bind, read_fs, is_file, ret. rewrite Hs. destruct node; reflexivity.
Qed.

Lemma listing_names (fs : FS) (entries : list PurePath) :
  omap (field "name") (omap (listing_entry fs) entries) =
  omap (fun f => match os_stat fs f with
                 | Return (File _) => Some (PStr (path_name f))
                 | _ => None
                 end) entries.
Proof.
  induction entries as [|f entries IH]; [reflexivity|].
  cbn [omap list_omap]. unfold listing_entry at 1.
  destruct (os_stat fs f) as [[b|]|e]; cbn [omap list_omap]; rewrite <- IH; reflexivity.
Qed.

(** X5. The tool [list_shared_files] and the endpoint GET /files see the
    same files: once the shared directory exists, the tool returns the
    names of the entries of the endpoint, in the same order, and neither
    changes anything. *)
Theorem list_shared_files_agrees :
  forall (w : World D),
    shared_dir_ready (w_fs w) ->
    exists entries,
      list_files w = (Return (PDict [("files", PList entries)]), w) /\
      list_shared_files w = (Return (PList (omap (field "name") entries)), w).
Proof.
  intros w Hfs. eexists. rewrite list_files_run, list_shared_files_run.
  rewrite (iterdir_shared _ Hfs). split; [reflexivity|].
  rewrite listing_names. reflexivity.
Qed.

Lemma os_stat_written (fs : FS) (n : string) (b : bytes) :
  shared_dir_ready fs -> plain_name n = true ->
  os_stat (<[(shared_loc ++ [n])%list := File b]> fs) (truediv SHARED_DIR n)
    = Return (File b).
Proof.
  intros Hfs Hn. rewrite (truediv_plain _ Hn). fold (child_path n).
  rewrite os_stat_child by (try apply shared_dir_ready_insert; assumption).
  rewrite lookup_insert_eq. reflexivity.
Qed.

(** X6. The last write wins: two uploads under the same file name (at most
    255 bytes, not empty, not ["."] or [".."], without ["/"] and NUL; not
    the name of a subdirectory) leave the file system as the second upload
    alone leaves it, and GET /files/{name} then returns the content of the
    second. *)
Theorem upload_twice_last_wins :
  forall (w : World D) (first second : UploadFile),
    shared_dir_ready (w_fs w) ->
    plain_name (filename first) = true ->
    filename second = filename first ->
    os_stat (w_fs w) (truediv SHARED_DIR (filename first)) <> Return Dir ->
    let w1 := (POST_files_upload first w).2 in
    let w2 := (POST_files_upload second w1).2 in
    http_status (POST_files_upload second w1).1 = 200 /\
    w_fs w2 = w_fs (POST_files_upload second w).2 /\
    (GET_files_filename (filename first) w2).1 =
      {| http_status := 200; http_body := FileBody (upload_content second) |}.
Proof.
  intros w f1 f2 Hfs Hn Heq Hd w1 w2. subst w1 w2. unfold POST_files_upload.
  pose proof Hn as Hn2. rewrite <- Heq in Hn2, Hd.
  rewrite !serve_snd, !serve_fst.
  rewrite (upload_plain f1 w Hfs Hn).
  2:{ rewrite <- Heq. exact Hd. }
  rewrite (upload_plain f2 w Hfs Hn2 Hd).
  cbn [snd].
  set (fs1 := <[(shared_loc ++ [filename f1])%list := File (upload_content f1)]> (w_fs w)).
  set (w1 := log_post (file_uploaded f1) (set_fs fs1 w)).
  assert (Hfs1 : shared_dir_ready (w_fs w1)) by (apply shared_dir_ready_insert, Hfs).
  assert (Hd1 : os_stat (w_fs w1) (truediv SHARED_DIR (filename f2)) <> Return Dir).
  { rewrite Heq. cbn [w_fs w1 log_post set_fs]. unfold fs1.
    rewrite (os_stat_written _ _ _ Hfs Hn). discriminate. }
  rewrite (upload_plain f2 w1 Hfs1 Hn2 Hd1). cbn [fst snd json_response http_status].
  split; [reflexivity|]. split.
  - cbn [w_fs w1 log_post set_fs]. unfold fs1. rewrite Heq. apply insert_insert_eq.
  - rewrite GET_files_filename_run. cbn [w_fs w1 log_post set_fs]. rewrite Heq.
    unfold path_exists. rewrite (os_stat_written fs1 _ _ Hfs1 Hn). reflexivity.
Qed.

(** X7. Uploads under different file names (each at most 255 bytes, not
    empty, not ["."] or [".."], without ["/"] and NUL; neither the name of
    a subdirectory) do not disturb each other: after both, each name
    downloads as the content uploaded under it. *)
Theorem uploads_are_independent :
  forall (w : World D) (one other : UploadFile),
    shared_dir_ready (w_fs w) ->
    plain_name (filename one) = true ->
    plain_name (filename other) = true ->
    filename one <> filename other ->
    os_stat (w_fs w) (truediv SHARED_DIR (filename one)) <> Return Dir ->
    os_stat (w_fs w) (truediv SHARED_DIR (filename other)) <> Return Dir ->
    let w2 := (POST_files_upload other (POST_files_upload one w).2).2 in
    (GET_files_filename (filename one) w2).1 =
      {| http_status := 200; http_body := FileBody (upload_content one) |} /\
    (GET_files_filename (filename other) w2).1 =
      {| http_status := 200; http_body := FileBody (upload_content other) |}.
Proof.
  intros w f1 f2 Hfs Hn1 Hn2 Hne Hd1 Hd2 w2. subst w2. unfold POST_files_upload.
  rewrite !serve_snd, (upload_plain f1 w Hfs Hn1 Hd1). cbn [snd].
  set (fs1 := <[(shared_loc ++ [filename f1])%list := File (upload_content f1)]> (w_fs w)).
  set (w1 := log_post (file_uploaded f1) (set_fs fs1 w)).
  assert (Hfs1 : shared_dir_ready (w_fs w1)) by (apply shared_dir_ready_insert, Hfs).
  assert (Hloc : (shared_loc ++ [filename f1])%list <> (shared_loc ++ [filename f2])%list).
  { intros E. apply app_inv_head in E. injection E as E. contradiction. }
  assert (Hd2' : os_stat (w_fs w1) (truediv SHARED_DIR (filename f2)) <> Return Dir).
  { rewrite (truediv_plain _ Hn2) in *. fold (child_path (filename f2)) in *.
    rewrite (os_stat_child _ _ Hfs1 Hn2). rewrite (os_stat_child _ _ Hfs Hn2) in Hd2.
    cbn [w_fs w1 log_post set_fs]. unfold fs1. rewrite lookup_insert_ne by exact Hloc.
    exact Hd2. }
  rewrite (upload_plain f2 w1 Hfs1 Hn2 Hd2'). cbn [snd].
  rewrite !GET_files_filename_run. cbn [w_fs w1 log_post set_fs]. unfold path_exists.
  split.
  - rewrite (truediv_plain _ Hn1). fold (child_path (filename f1)).
    rewrite os_stat_child by (try apply shared_dir_ready_insert; assumption).
    rewrite lookup_insert_ne by (intros E; apply Hloc; symmetry; exact E).
    unfold fs1. rewrite lookup_insert_eq. reflexivity.
  - rewrite (os_stat_written fs1 _ _ Hfs1 Hn2). reflexivity.
Qed.

(** X8. An upload either answers 200, having notified the receiver once,
    or answers 500 with the text of the error and leaves the whole world as
    it was: no file is written and no notification is sent. *)
Theorem upload_succeeds_or_changes_nothing :
  forall (w : World D) (file : UploadFile),
    let r := POST_files_upload file w in
    (http_status r.1 = 200 /\
     w_post_log r.2 = (w_post_log w ++ [file_uploaded file])%list) \/
    (exists cls msg, r = (error_json 500 msg, w) /\
       (open_wb_write (truediv SHARED_DIR (filename file)) (upload_content file) (w_fs w)).1
         = Raise (Exception cls msg)).
Proof.
  intros w file. cbv zeta. unfold POST_files_upload, serve.
  rewrite upload_file_run. cbv zeta.
  destruct (open_wb_write _ _ (w_fs w)) as [[u|e] fs'] eqn:E.
  - left. split; reflexivity.
  - right. apply open_wb_write_raises in E as [-> (cls & msg & ->)].
    exists cls, msg. rewrite set_fs_id. split; reflexivity.
Qed.

(** X9. An upload under the name of an existing subdirectory of the shared
    directory is refused: 500 with the text of [IsADirectoryError], which
    ends in the [repr] of the path, and the subdirectory stays. *)
Theorem upload_onto_directory_fails :
  forall (w : World D) (file : UploadFile),
    shared_dir_ready (w_fs w) ->
    plain_name (filename file) = true ->
    w_fs w !! (shared_loc ++ [filename file])%list = Some Dir ->
    POST_files_upload file w =
      (error_json 500
         ("[Errno 21] Is a directory: " +:+ py_repr ("/app/shared/" +:+ filename file)), w).
Proof.
  intros w file Hfs Hn Hdir. unfold POST_files_upload, serve.
  rewrite upload_file_run. cbv zeta. rewrite (truediv_plain _ Hn).
  unfold open_wb_write. rewrite (resolve_child _ _ Hfs Hn), node_at_child, Hdir.
  rewrite set_fs_id. reflexivity.
Qed.

(** X10. The module-level [SHARED_DIR.mkdir(exist_ok=True)]: when [/app]
    is a directory and [/app/shared] is not a file, it returns, the shared
    directory exists afterwards, nothing else on the file system changes,
    and running it again changes nothing. *)
Theorem startup_creates_shared_dir :
  forall (w : World D),
    w_fs w !! ["app"] = Some Dir ->
    (forall b, w_fs w !! shared_loc <> Some (File b)) ->
    (startup w).1 = Return tt /\
    shared_dir_ready (w_fs (startup w).2) /\
    (forall loc, loc <> shared_loc -> w_fs (startup w).2 !! loc = w_fs w !! loc) /\
    startup (startup w).2 = (Return tt, (startup w).2).
Proof.
  intros w Happ Hfile.
  destruct (startup_shared_dir_ready w Happ Hfile) as [Hret Hready].
  split; [exact Hret|]. split; [exact Hready|]. split.
  - intros loc Hloc. unfold startup, write_fs, mkdir_exist_ok.
    destruct (resolve (w_fs w) SHARED_DIR) as [loc'|e] eqn:Er; [|reflexivity].
    assert (loc' = shared_loc) as ->.
    { unfold resolve in Er. rewrite SHARED_DIR_eq in Er.
      change (has_nul (path_str _)) with false in Er. cbv iota in Er.
      unfold shared_loc in Er.
      cbn [walk parts node_at String.eqb app Ascii.eqb Bool.eqb] in Er.
      rewrite Happ in Er. injection Er as <-. reflexivity. }
    destruct (node_at (w_fs w) shared_loc) as [[b|]|]; try reflexivity.
    cbn [snd w_fs set_fs]. apply lookup_insert_ne. congruence.
  - pose proof (shared_dir_ready_inv _ Hready) as [H1 H2].
    pose proof (resolve_shared _ Hready) as Hres.
    generalize dependent (startup w).2. intros w1 _ H1 H2 Hres.
    unfold startup, write_fs, mkdir_exist_ok. rewrite Hres.
    change (node_at (w_fs w1) shared_loc) with (w_fs w1 !! shared_loc).
    rewrite H2. rewrite set_fs_id. reflexivity.
Qed.

End Uploads.

(** ** The chat flow *)

Section ChatFlow.
Context {py : PyRuntime} {D : Type} {docker_client : DockerClient D}.

Local Open Scope py_scope.

Lemma POST_chat_run (request : ChatRequest) (w : World D) :
  POST_chat request w = (json_response (chat request w).1, (chat request w).2).
Proof. unfold POST_chat, serve. destruct (chat request w); reflexivity. Qed.

(** X11. When the model backend fails on the first call, the request
    answers 500 with the text of the error; the model has been called once,
    no tool has run and no notification is sent. *)
Theorem chat_model_failure :
  forall (request : ChatRequest) (w : World D) (e : exn),
    w_ollama w (first_call request) = Raise e ->
    POST_chat request w =
      (error_json 500 (exn_str e), log_ollama (first_call request) w).
Proof.
  intros request w e H. rewrite POST_chat_run, chat_run, H. reflexivity.
Qed.

(** X12. When the tool calls have run and the model backend fails on the
    second call, the request answers 500 with the text of the error and
    without the results; what the tools did to the runtime stays, and no
    notification is sent. *)
Theorem chat_second_call_failure :
  forall (request : ChatRequest) (w w2 : World D) (response : ModelMessage)
         (results : list pyval) (e : exn),
    w_ollama w (first_call request) = Return response ->
    requested_tool_calls response <> [] ->
    tool_run (log_ollama (first_call request) w) (requested_tool_calls response) results w2 ->
    w_ollama w (second_call request response results) = Raise e ->
    POST_chat request w =
      (error_json 500 (exn_str e), log_ollama (second_call request response results) w2) /\
    w_post_log (POST_chat request w).2 = w_post_log w.
Proof.
  intros request w w2 response results e H1 Hne Hrun H2.
  rewrite POST_chat_run, chat_run, H1. cbv zeta.
  apply for_each_tool_run in Hrun.
  destruct (tools_frame (requested_tool_calls response)
              (log_ollama (first_call request) w)) as [d Hd].
  rewrite Hrun in Hd. simpl in Hd. subst w2.
  destruct (requested_tool_calls response) as [|tc tcs]; [contradiction|].
  rewrite Hrun, H2. split; reflexivity.
Qed.

(** X13. The receiver is notified exactly when the response carries
    [tool_results], once, with the event ["tool_executed"], the message of
    the user and those same results; a response without [tool_results] and
    a failed request send nothing. *)
Theorem chat_notifies_with_tool_results :
  forall (request : ChatRequest) (w : World D),
    match (chat request w).1 with
    | Return v =>
        match field "tool_results" v with
        | Some (PList results) =>
            w_post_log (chat request w).2 =
              (w_post_log w ++
               [{| pc_url := N8N_WEBHOOK_URL +:+ "/webhook/agent-action";
                   pc_json := PDict [("event", PStr "tool_executed");
                                     ("message", PStr (message request));
                                     ("results", PList results)];
                   pc_timeout := 5 |}])%list
        | _ => w_post_log (chat request w).2 = w_post_log w
        end
    | Raise _ => w_post_log (chat request w).2 = w_post_log w
    end.
Proof.
  intros request w. rewrite chat_run. cbv zeta.
  destruct (w_ollama w (first_call request)) as [response|e]; [|reflexivity].
  destruct (tools_frame (requested_tool_calls response)
              (log_ollama (first_call request) w)) as [d Hd].
  destruct (requested_tool_calls response) as [|tc tcs]; [reflexivity|].
  destruct (for_each (tc :: tcs) run_tool_call (log_ollama (first_call request) w))
    as [[results|e] w2]; simpl in Hd; subst w2; [|reflexivity].
  destruct (w_ollama w (second_call request response results)); reflexivity.
Qed.

(** X14. A chat request never writes to the file system, whatever the
    model asks for and however the request ends. *)
Theorem chat_leaves_files :
  forall (request : ChatRequest) (w : World D),
    w_fs (POST_chat request w).2 = w_fs w.
Proof.
  intros request w. rewrite POST_chat_run, chat_run. cbv zeta.
  destruct (w_ollama w (first_call request)) as [response|e]; [|reflexivity].
  destruct (tools_frame (requested_tool_calls response)
              (log_ollama (first_call request) w)) as [d Hd].
  destruct (requested_tool_calls response) as [|tc tcs]; [reflexivity|].
  destruct (for_each (tc :: tcs) run_tool_call (log_ollama (first_call request) w))
    as [[results|e] w2]; simpl in Hd; subst w2; [|reflexivity].
  destruct (w_ollama w (second_call request response results)); reflexivity.
Qed.

Lemma known_name (s : string) :
  s ∈ tool_names <->
  s = "list_containers" \/ s = "start_container" \/
  s = "stop_container" \/ s = "list_shared_files".
Proof.
  change tool_names with
    ["list_containers"; "start_container"; "stop_container"; "list_shared_files"].
  rewrite !elem_of_cons, elem_of_nil. tauto.
Qed.

Lemma start_container_returns (key : pyval) (w : World D) :
  exists s w', start_container key w = (Return (PStr s), w') /\ s <> "Funzione non trovata".
Proof.
  rewrite start_container_run.
  destruct (containers_get key (w_docker w)) as [[c|e] d1].
  - destruct (container_start c d1) as [[u|e] d2]; eexists _, _; (split; [reflexivity|]);
      unfold String.append; discriminate.
  - eexists _, _; (split; [reflexivity|]); unfold String.append; discriminate.
Qed.

Lemma stop_container_returns (key : pyval) (w : World D) :
  exists s w', stop_container key w = (Return (PStr s), w') /\ s <> "Funzione non trovata".
Proof.
  rewrite stop_container_run.
  destruct (containers_get key (w_docker w)) as [[c|e] d1].
  - destruct (container_stop c d1) as [[u|e] d2]; eexists _, _; (split; [reflexivity|]);
      unfold String.append; discriminate.
  - eexists _, _; (split; [reflexivity|]); unfold String.append; discriminate.
Qed.

(** X15. The dispatch and the catalog agree: a tool call that returns
    carries the result ["Funzione non trovata"] exactly when its function
    name is not one of the names of the catalog handed to the model. *)
Theorem dispatch_agrees_with_catalog :
  forall (tc : ToolCall) (w w' : World D) (entry : pyval),
    run_tool_call tc w = (Return entry, w') ->
    (field "result" entry = Some (PStr "Funzione non trovata") <->
     tc_name tc ∉ tool_names).
Proof.
  intros tc w w' entry. unfold run_tool_call. unfold bind at 1.
  destruct (String.eqb (tc_name tc) "list_containers") eqn:E1.
  { apply String.eqb_eq in E1.
    destruct (list_containers w) as [[v|e] w1] eqn:El; [|discriminate].
    destruct (list_containers_returns_list _ _ _ El) as (summaries & ->).
    intros H. injection H as <- _. simpl. split; [discriminate|].
    intros Hn. exfalso. apply Hn, known_name. auto. }
  destruct (String.eqb (tc_name tc) "start_container") eqn:E2.
  { apply String.eqb_eq in E2. unfold bind at 1, getitem.
    destruct (dict_get "container_name" _) as [a|]; [|discriminate].
    change (ret a w) with (Return a, w). cbv beta iota.
    destruct (start_container_returns a w) as (s & w1 & -> & Hs).
    intros H. injection H as <- _. simpl. split.
    - intros H. injection H as ->. contradiction.
    - intros Hn. exfalso. apply Hn, known_name. auto. }
  destruct (String.eqb (tc_name tc) "stop_container") eqn:E3.
  { apply String.eqb_eq in E3. unfold bind at 1, getitem.
    destruct (dict_get "container_name" _) as [a|]; [|discriminate].
    change (ret a w) with (Return a, w). cbv beta iota.
    destruct (stop_container_returns a w) as (s & w1 & -> & Hs).
    intros H. injection H as <- _. simpl. split.
    - intros H. injection H as ->. contradiction.
    - intros Hn. exfalso. apply Hn, known_name. auto. }
  destruct (String.eqb (tc_name tc) "list_shared_files") eqn:E4.
  { apply String.eqb_eq in E4. rewrite list_shared_files_run.
    destruct (iterdir (w_fs w) SHARED_DIR); [|discriminate].
    intros H. injection H as <- _. simpl. split; [discriminate|].
    intros Hn. exfalso. apply Hn, known_name. auto. }
  intros H. injection H as <- _. simpl. split; [intros _|reflexivity].
  rewrite known_name. apply String.eqb_neq in E1, E2, E3, E4. tauto.
Qed.

(** X16. A request to start or stop a container that carries no
    [container_name] argument raises [KeyError] before the runtime is
    reached: nothing is looked up, started or stopped. *)
Theorem missing_container_name :
  forall (tc : ToolCall) (w : World D),
    tc_name tc = "start_container" \/ tc_name tc = "stop_container" ->
    dict_get "container_name" (default [] (tc_arguments tc)) = None ->
    run_tool_call tc w = (Raise (Exception "KeyError" "'container_name'"), w).
Proof.
  intros tc w Hname Hargs. unfold run_tool_call, bind, getitem.
  destruct Hname as [-> | ->]; cbn [String.eqb Ascii.eqb Bool.eqb]; rewrite Hargs; reflexivity.
Qed.

Lemma for_each_abort (pre rest : list ToolCall) (tc : ToolCall) (rs : list pyval)
    (w w2 w3 : World D) (e : exn) :
  tool_run w pre rs w2 -> run_tool_call tc w2 = (Raise e, w3) ->
  for_each (pre ++ tc :: rest) run_tool_call w = (Raise e, w3).
Proof.
  induction 1 as [w|w w1 w2 tc' tcs r rs H1 H2 IH]; intros Hr; simpl.
  - unfold bind. rewrite Hr. reflexivity.
  - unfold bind at 1. rewrite H1. unfold bind at 1. rewrite (IH Hr). reflexivity.
Qed.

(** X17. A tool call that raises ends the request at once: the response is
    500 with the text of the error, the calls after it are not run, the
    model is not called a second time and no notification is sent, while
    what the calls before it did to the runtime stays. *)
Theorem raising_tool_call_aborts :
  forall (request : ChatRequest) (w w2 w3 : World D) (response : ModelMessage)
         (pre rest : list ToolCall) (tc : ToolCall) (rs : list pyval) (e : exn),
    w_ollama w (first_call request) = Return response ->
    requested_tool_calls response = (pre ++ tc :: rest)%list ->
    tool_run (log_ollama (first_call request) w) pre rs w2 ->
    run_tool_call tc w2 = (Raise e, w3) ->
    POST_chat request w = (error_json 500 (exn_str e), w3) /\
    w_ollama_log w3 = (w_ollama_log w ++ [first_call request])%list /\
    w_post_log w3 = w_post_log w.
Proof.
  intros request w w2 w3 response pre rest tc rs e H1 Htcs Hpre Hr.
  pose proof (for_each_abort pre rest tc rs _ _ _ e Hpre Hr) as Hrun.
  destruct (tools_frame (pre ++ tc :: rest) (log_ollama (first_call request) w)) as [d Hd].
  rewrite Hrun in Hd. simpl in Hd. subst w3.
  rewrite POST_chat_run, chat_run, H1. cbv zeta. rewrite Htcs.
  destruct (pre ++ tc :: rest)%list as [|tc0 tcs0] eqn:E.
  - destruct pre; discriminate E.
  - rewrite Hrun. repeat split.
Qed.

Lemma safe_calls_run (tcs : list ToolCall) (w : World D) :
  Forall (fun tc =>
            tc_name tc ∉ tool_names \/
            ((tc_name tc = "start_container" \/ tc_name tc = "stop_container") /\
             is_Some (dict_get "container_name" (default [] (tc_arguments tc))))) tcs ->
  exists results w2, tool_run w tcs results w2.
Proof.
  intros Hall. revert w. induction Hall as [|tc tcs Htc Hall IH]; intros w.
  - eexists _, _. constructor.
  - assert (Hstep : exists r w', run_tool_call tc w = (Return r, w')).
    { destruct Htc as [Hu | [Hname [a Ha]]].
      - eexists _, _. apply run_tool_call_unknown, Hu.
      - unfold run_tool_call, bind, getitem.
        destruct Hname as [-> | ->]; cbn [String.eqb Ascii.eqb Bool.eqb]; rewrite Ha;
          change (ret a w) with (Return a, w); cbv beta iota.
        + destruct (start_container_returns a w) as (s & w' & -> & _). eauto.
        + destruct (stop_container_returns a w) as (s & w' & -> & _). eauto. }
    destruct Hstep as (r & w' & Hstep).
    destruct (IH w') as (rs & w2 & Hrs).
    eexists _, _. econstructor; eassumption.
Qed.

(** X18. Errors of the container runtime never fail a chat request: when
    every tool call is either a start or stop request that carries a
    [container_name], or a request for a function that does not exist, all
    the calls run, and the request answers 200 as soon as the model answers
    the second call. *)
Theorem runtime_errors_do_not_fail_chat :
  forall (request : ChatRequest) (w : World D) (response : ModelMessage),
    w_ollama w (first_call request) = Return response ->
    requested_tool_calls response <> [] ->
    Forall (fun tc =>
              tc_name tc ∉ tool_names \/
              ((tc_name tc = "start_container" \/ tc_name tc = "stop_container") /\
               is_Some (dict_get "container_name" (default [] (tc_arguments tc)))))
           (requested_tool_calls response) ->
    exists results w2,
      tool_run (log_ollama (first_call request) w) (requested_tool_calls response) results w2 /\
      forall final_response,
        w_ollama w (second_call request response results) = Return final_response ->
        (POST_chat request w).1 =
          ok_json (PDict [("response", PStr (msg_content final_response));
                          ("tool_results", PList results)]).
Proof.
  intros request w response H1 Hne Hall.
  destruct (safe_calls_run _ (log_ollama (first_call request) w) Hall)
    as (results & w2 & Hres).
  exists results, w2. split; [exact Hres|].
  intros r2 H2. rewrite POST_chat_run, chat_run, H1. cbv zeta.
  apply for_each_tool_run in Hres.
  destruct (requested_tool_calls response) as [|tc tcs]; [contradiction|].
  rewrite Hres, H2. reflexivity.
Qed.

End ChatFlow.

(** ** The further properties at work on the in-memory runtime *)

Section MoreScenarios.

#[local] Existing Instance Fake.python.
#[local] Existing Instance Fake.docker.

(** X1: a file that was never uploaded. *)
Lemma download_absent_is_404_witness :
  let w : FakeWorld := Fake.world (Fake.scripted (Fake.says "") (Fake.says "")) Fake.accepted in
  GET_files_filename "missing.csv" w = (error_json 404 "File non trovato", w).
Proof.
  cbv zeta. apply download_absent_is_404; vm_compute; reflexivity.
Defined.

(** X2: the listing after [report.csv] has been uploaded next to the
    subdirectory [archive]. *)
Lemma list_files_exact_witness :
  let w : FakeWorld :=
    (POST_files_upload Fake.report_csv
       (set_fs Fake.disk_with_archive
          (Fake.world (Fake.scripted (Fake.says "") (Fake.says "")) Fake.accepted))).2 in
  (GET_files w).2 = w /\
  http_status (GET_files w).1 = 200 /\
  (file_entry "report.csv" 12 ∈ listed_files (GET_files w).1 <->
   exists b, w_fs w !! ["app"; "shared"; "report.csv"] = Some (File b) /\
             12 = Z.of_nat (length b)).
Proof.
  cbv zeta. apply list_files_exact; vm_compute; reflexivity.
Defined.

(** X3: a machine without [/app/shared]. *)
Lemma list_files_without_shared_dir_witness :
  let w : FakeWorld :=
    set_fs ∅ (Fake.world (Fake.scripted (Fake.says "") (Fake.says "")) Fake.accepted) in
  GET_files w = (internal_server_error, w).
Proof.
  cbv zeta. apply list_files_without_shared_dir. vm_compute. discriminate.
Defined.

(** X4: [report.csv] is listed with 12 bytes and downloads as 12 bytes. *)
Lemma listed_file_downloads_witness :
  let w : FakeWorld :=
    (POST_files_upload Fake.report_csv
       (Fake.world (Fake.scripted (Fake.says "") (Fake.says "")) Fake.accepted)).2 in
  exists b, 12 = Z.of_nat (length b) /\
    GET_files_filename "report.csv" w = ({| http_status := 200; http_body := FileBody b |}, w).
Proof.
  cbv zeta. apply listed_file_downloads; [reflexivity|].
  vm_compute. constructor.
Defined.

(** X5: the tool and the endpoint on the machine with [report.csv] and
    [archive]. *)
Lemma list_shared_files_agrees_witness :
  let w : FakeWorld :=
    (POST_files_upload Fake.report_csv
       (set_fs Fake.disk_with_archive
          (Fake.world (Fake.scripted (Fake.says "") (Fake.says "")) Fake.accepted))).2 in
  exists entries,
    list_files w = (Return (PDict [("files", PList entries)]), w) /\
    list_shared_files w = (Return (PList (omap (field "name") entries)), w).
Proof.
  cbv zeta. apply list_shared_files_agrees. vm_compute. reflexivity.
Defined.

(** X6: [report.csv] uploaded twice, the second time with one byte. *)
Lemma upload_twice_last_wins_witness :
  let second := {| filename := "report.csv"; upload_content := [Byte.x21] |} in
  let w : FakeWorld := Fake.world (Fake.scripted (Fake.says "") (Fake.says "")) Fake.unreachable in
  let w1 := (POST_files_upload Fake.report_csv w).2 in
  let w2 := (POST_files_upload second w1).2 in
  http_status (POST_files_upload second w1).1 = 200 /\
  w_fs w2 = w_fs (POST_files_upload second w).2 /\
  (GET_files_filename "report.csv" w2).1 =
    {| http_status := 200; http_body := FileBody [Byte.x21] |}.
Proof.
  cbv zeta.
  apply (upload_twice_last_wins
           (Fake.world (Fake.scripted (Fake.says "") (Fake.says "")) Fake.unreachable)
           Fake.report_csv {| filename := "report.csv"; upload_content := [Byte.x21] |}).
  - vm_compute. reflexivity.
  - reflexivity.
  - reflexivity.
  - vm_compute. discriminate.
Defined.

(** X7: [report.csv] and [notes.txt]. *)
Lemma uploads_are_independent_witness :
  let other := {| filename := "notes.txt"; upload_content := [Byte.x68; Byte.x69] |} in
  let w : FakeWorld := Fake.world (Fake.scripted (Fake.says "") (Fake.says "")) Fake.unreachable in
  let w2 := (POST_files_upload other (POST_files_upload Fake.report_csv w).2).2 in
  (GET_files_filename "report.csv" w2).1 =
    {| http_status := 200; http_body := FileBody (upload_content Fake.report_csv) |} /\
  (GET_files_filename "notes.txt" w2).1 =
    {| http_status := 200; http_body := FileBody [Byte.x68; Byte.x69] |}.
Proof.
  cbv zeta.
  apply (uploads_are_independent
           (Fake.world (Fake.scripted (Fake.says "") (Fake.says "")) Fake.unreachable)
           Fake.report_csv {| filename := "notes.txt"; upload_content := [Byte.x68; Byte.x69] |}).
  - vm_compute. reflexivity.
  - reflexivity.
  - reflexivity.
  - discriminate.
  - vm_compute. discriminate.
  - vm_compute. discriminate.
Defined.

(** X9: an upload under the name of the subdirectory [archive]. *)
Lemma upload_onto_directory_fails_witness :
  let file := {| filename := "archive"; upload_content := [Byte.x01] |} in
  let w : FakeWorld :=
    set_fs Fake.disk_with_archive
      (Fake.world (Fake.scripted (Fake.says "") (Fake.says "")) Fake.accepted) in
  POST_files_upload file w =
    (error_json 500 "[Errno 21] Is a directory: '/app/shared/archive'", w).
Proof.
  cbv zeta.
  refine (eq_trans
            (upload_onto_directory_fails
               (set_fs Fake.disk_with_archive
                  (Fake.world (Fake.scripted (Fake.says "") (Fake.says "")) Fake.accepted))
               {| filename := "archive"; upload_content := [Byte.x01] |} _ _ _) _);
    vm_compute; reflexivity.
Defined.

(** X10: the service starts on a machine that has [/app] and nothing in
    it. *)
Lemma startup_creates_shared_dir_witness :
  let w : FakeWorld :=
    set_fs (<[ ["app"] := Dir ]> ∅)
      (Fake.world (Fake.scripted (Fake.says "") (Fake.says "")) Fake.accepted) in
  (startup w).1 = Return tt /\
  shared_dir_ready (w_fs (startup w).2) /\
  (forall loc, loc <> shared_loc -> w_fs (startup w).2 !! loc = w_fs w !! loc) /\
  startup (startup w).2 = (Return tt, (startup w).2).
Proof.
  cbv zeta. apply startup_creates_shared_dir.
  - vm_compute. reflexivity.
  - intros b. vm_compute. discriminate.
Defined.

(** X11: the model backend cannot be reached. *)
Lemma chat_model_failure_witness :
  let request := {| message := "hello" |} in
  let down := Raise (Exception "ConnectionError" "connection refused") in
  let w : FakeWorld := Fake.world (Fake.scripted down down) Fake.accepted in
  POST_chat request w =
    (error_json 500 "connection refused", log_ollama (first_call request) w).
Proof.
  cbv zeta.
  apply (chat_model_failure {| message := "hello" |}
           (Fake.world (Fake.scripted
                          (Raise (Exception "ConnectionError" "connection refused"))
                          (Raise (Exception "ConnectionError" "connection refused")))
                       Fake.accepted)
           (Exception "ConnectionError" "connection refused")).
  reflexivity.
Defined.

(** X12: the model asks to stop [web] and is gone when the result comes
    back: [web] is stopped all the same. *)
Lemma chat_second_call_failure_witness :
  let request := {| message := "stop web" |} in
  let reply := Fake.requests [Fake.call "stop_container" [("container_name", PStr "web")]] in
  let down := Raise (Exception "ConnectionError" "connection refused") in
  let w : FakeWorld := Fake.world (Fake.scripted (Return reply) down) Fake.accepted in
  (POST_chat request w).1 = error_json 500 "connection refused" /\
  List.map status (w_docker (POST_chat request w).2) = ["exited"; "exited"] /\
  w_post_log (POST_chat request w).2 = [].
Proof.
  cbv zeta.
  pose (request := {| message := "stop web" |}).
  pose (reply := Fake.requests
                   [Fake.call "stop_container" [("container_name", PStr "web")]]).
  pose (w := Fake.world (Fake.scripted (Return reply)
                           (Raise (Exception "ConnectionError" "connection refused")))
                        Fake.accepted).
  pose (w1 := log_ollama (first_call request) w).
  pose (tc := Fake.call "stop_container" [("container_name", PStr "web")]).
  destruct (chat_second_call_failure request w (run_tool_call tc w1).2 reply
              [PDict [("function", PStr "stop_container");
                      ("result", PStr "Container web fermato")]]
              (Exception "ConnectionError" "connection refused"))
    as [Hresp Hlog].
  - reflexivity.
  - discriminate.
  - econstructor; [|constructor]. vm_compute. reflexivity.
  - reflexivity.
  - split; [exact (f_equal fst Hresp)|]. split; [|exact Hlog].
    exact (f_equal (fun r : HTTPResponse * FakeWorld => List.map status (w_docker r.2)) Hresp).
Defined.

(** X15: a function that is not in the catalog. *)
Lemma dispatch_agrees_with_catalog_witness :
  (field "result" (PDict [("function", PStr "restart_container");
                          ("result", PStr "Funzione non trovata")])
     = Some (PStr "Funzione non trovata") <->
   "restart_container" ∉ tool_names).
Proof.
  pose (w := Fake.world (Fake.scripted (Fake.says "") (Fake.says "")) Fake.accepted).
  apply (dispatch_agrees_with_catalog (Fake.call_without_arguments "restart_container") w w).
  vm_compute. reflexivity.
Defined.

(** X16: the model names the argument [name] instead of
    [container_name]. *)
Lemma missing_container_name_witness :
  let tc := Fake.call "start_container" [("name", PStr "web")] in
  let w : FakeWorld := Fake.world (Fake.scripted (Fake.says "") (Fake.says "")) Fake.accepted in
  run_tool_call tc w = (Raise (Exception "KeyError" "'container_name'"), w).
Proof.
  cbv zeta. apply missing_container_name; [left|]; reflexivity.
Defined.

(** X17: stop [web], then a start request without arguments, then a
    listing: [web] is stopped, the listing is never made. *)
Lemma raising_tool_call_aborts_witness :
  let request := {| message := "restart web" |} in
  let reply := Fake.requests [Fake.call "stop_container" [("container_name", PStr "web")];
                              Fake.call "start_container" [];
                              Fake.call_without_arguments "list_containers"] in
  let w : FakeWorld := Fake.world (Fake.scripted (Return reply) (Fake.says "done")) Fake.accepted in
  (POST_chat request w).1 = error_json 500 "'container_name'" /\
  List.map status (w_docker (POST_chat request w).2) = ["exited"; "exited"] /\
  w_ollama_log (POST_chat request w).2 = [first_call request] /\
  w_post_log (POST_chat request w).2 = [].
Proof.
  cbv zeta.
  pose (request := {| message := "restart web" |}).
  pose (stop := Fake.call "stop_container" [("container_name", PStr "web")]).
  pose (reply := Fake.requests [stop; Fake.call "start_container" [];
                                Fake.call_without_arguments "list_containers"]).
  pose (w := Fake.world (Fake.scripted (Return reply) (Fake.says "done")) Fake.accepted).
  pose (w2 := (run_tool_call stop (log_ollama (first_call request) w)).2).
  destruct (raising_tool_call_aborts request w w2 w2 reply
              [stop] [Fake.call_without_arguments "list_containers"]
              (Fake.call "start_container" [])
              [PDict [("function", PStr "stop_container");
                      ("result", PStr "Container web fermato")]]
              (Exception "KeyError" "'container_name'"))
    as (Hresp & Hlog & Hpost).
  - reflexivity.
  - reflexivity.
  - econstructor; [|constructor]. vm_compute. reflexivity.
  - vm_compute. reflexivity.
  - split; [exact (f_equal fst Hresp)|]. split; [|split].
    + exact (f_equal (fun r : HTTPResponse * FakeWorld => List.map status (w_docker r.2)) Hresp).
    + exact (eq_trans
               (f_equal (fun r : HTTPResponse * FakeWorld => w_ollama_log r.2) Hresp) Hlog).
    + exact (eq_trans
               (f_equal (fun r : HTTPResponse * FakeWorld => w_post_log r.2) Hresp) Hpost).
Defined.

(** X18: the model asks to stop a container that does not exist and for a
    function that does not exist. *)
Lemma runtime_errors_do_not_fail_chat_witness :
  let request := {| message := "stop api and restart web" |} in
  let reply := Fake.requests [Fake.call "stop_container" [("container_name", PStr "api")];
                              Fake.call_without_arguments "restart_container"] in
  let w : FakeWorld := Fake.world (Fake.scripted (Return reply) (Fake.says "done")) Fake.unreachable in
  exists results,
    (POST_chat request w).1 =
      ok_json (PDict [("response", PStr "done"); ("tool_results", PList results)]).
Proof.
  cbv zeta.
  pose (request := {| message := "stop api and restart web" |}).
  pose (reply := Fake.requests
                   [Fake.call "stop_container" [("container_name", PStr "api")];
                    Fake.call_without_arguments "restart_container"]).
  pose (w := Fake.world (Fake.scripted (Return reply) (Fake.says "done")) Fake.unreachable).
  destruct (runtime_errors_do_not_fail_chat request w reply) as (results & w2 & _ & Hresp).
  - reflexivity.
  - discriminate.
  - constructor; [|constructor; [|constructor]].
    + right. split; [right; reflexivity|]. eexists. reflexivity.
    + left. rewrite list_elem_of_In. vm_compute.
      intros [E|[E|[E|[E|[]]]]]; discriminate E.
  - exists results.
    apply (Hresp {| msg_content := "done"; msg_tool_calls := None |}). reflexivity.
Defined.

End MoreScenarios.
